(** * Monte Carlo estimation of pi: sampler/estimator and renderer

    A shallow embedding of [run_pi_simulation] and [plot_simulation] of
    [pi_app_v1.1.py].  Coordinates and the estimate are IEEE 754 binary64
    values (numpy's [float64]), modelled by Rocq's primitive floats; counts
    are numpy [int64] values, modelled by [Z] with the wrap-around written
    out.  The random generator is threaded explicitly, and a numpy call that
    raises makes the whole run raise. *)

From Stdlib Require Import ZArith String Ascii DecimalString List Bool Lia Floats.
From Stdlib Require Import Permutation.
Import ListNotations.

Local Open Scope string_scope.
Local Open Scope Z_scope.
Set Warnings "-inexact-float".

(** ** Values *)

(** A Python number as the program returns it: the sentinel estimate is the
    [int] literal [0], a computed estimate is a [float64]. *)
Inductive pynum : Type :=
| PyInt (z : Z)
| PyFloat (f : float).

(** [a <= b] on binary64 (false as soon as one side is a NaN). *)
Definition fle (a b : float) : Prop := (a <=? b)%float = true.

(** ** The numpy operations the program uses *)

Module Np.

(** Two's complement reduction to 64 bits: what an [int64] operation keeps
    of its mathematical result. *)
Definition int64_wrap (z : Z) : Z := (z + 2 ^ 63) mod 2 ^ 64 - 2 ^ 63.

(** Conversion of an integer to the nearest binary64 (ties to even). *)
Definition float_of_int (z : Z) : float :=
  SF2Prim (binary_normalize prec emax z 0 false).

(** [a ** 2] on a [float64] array: every element multiplied by itself. *)
Definition power2 (a : list float) : list float :=
  map (fun v => (v * v)%float) a.

(** [a + b], element by element, for arrays of the same length: both
    operands of the program's only sum come from draws of the same size.
    What numpy does with other shapes (broadcasting, or [ValueError]) is
    not modelled; every property below that depends on the sum is about
    draws that honour numpy's contract or about arrays of equal length. *)
Definition add (a b : list float) : list float :=
  map (fun p => (fst p + snd p)%float) (combine a b).

(** [a <= c] against a scalar: a boolean array. *)
Definition less_equal (a : list float) (c : float) : list bool :=
  map (fun v => (v <=? c)%float) a.

(** [np.sum] of a boolean array: the number of [True] entries, as [int64]. *)
Definition sum (m : list bool) : Z :=
  int64_wrap (Z.of_nat (count_occ bool_dec m true)).

(** [c * k] for a Python [int] [c] and an [int64] [k]: an [int64]. *)
Definition int64_mul (c k : Z) : Z := int64_wrap (c * k).

(** [a / b] on integers: both sides are cast to [float64], then divided. *)
Definition true_divide (a b : Z) : float :=
  (float_of_int a / float_of_int b)%float.

(** [~m] on a boolean array. *)
Definition invert (m : list bool) : list bool := map negb m.

(** [a[m]] for a boolean mask [m]: the elements of [a] where [m] holds;
    numpy raises [IndexError] when the shapes differ. *)
Fixpoint select (a : list float) (m : list bool) : list float :=
  match a, m with
  | v :: a', b :: m' => if b then v :: select a' m' else select a' m'
  | _, _ => []
  end.

Definition mask (a : list float) (m : list bool) : option (list float) :=
  if Nat.eqb (length a) (length m) then Some (select a m) else None.

End Np.

(** ** The sampler/estimator *)

(** What [run_pi_simulation] returns, field by field in the order of the
    returned tuple. *)
Record sim_result : Type := mk_result {
  x : list float;
  y : list float;
  inside_circle : list bool;
  pi_estimate : pynum;
  points_inside : Z;
  points_total : Z
}.

(** The result of the early return for [num_points <= 0]. *)
Definition empty_result : sim_result :=
  mk_result [] [] [] (PyInt 0) 0 0.

Section Sampler.

(** The state of numpy's global generator. *)
Variable rng : Type.

(** [np.random.uniform(low, high, size)]: the drawn array and the next
    generator state, or [None] when numpy raises (a size it cannot
    allocate). *)
Variable uniform : float -> float -> Z -> rng -> option (list float * rng).

(** A computation that reads and advances the generator and may raise. *)
Definition M (A : Type) : Type := rng -> option (A * rng).

Definition ret {A : Type} (a : A) : M A := fun g => Some (a, g).

Definition bind {A B : Type} (m : M A) (k : A -> M B) : M B :=
  fun g => match m g with
           | Some (a, g') => k a g'
           | None => None
           end.

Notation "v <- m ;; k" := (bind m (fun v => k))
  (at level 61, m at next level, right associativity).

Definition run_pi_simulation (num_points : Z) : M sim_result :=
  if num_points <=? 0 then ret empty_result
  else
    x <- uniform (-1) 1 num_points ;;
    y <- uniform (-1) 1 num_points ;;
    let distance_sq := Np.add (Np.power2 x) (Np.power2 y) in
    let inside_circle := Np.less_equal distance_sq 1 in
    let points_inside := Np.sum inside_circle in
    let points_total := num_points in
    let pi_estimate :=
      if points_total >? 0
      then PyFloat (Np.true_divide (Np.int64_mul 4 points_inside) points_total)
      else PyInt 0 in
    ret (mk_result x y inside_circle pi_estimate points_inside points_total).

(** numpy's contract for [uniform], as far as the program relies on it:
    a draw that returns has exactly [size] elements, the array fits in
    memory (its 8-byte elements are addressed by a signed 64-bit size), and
    for [low <= high] every element lies between the two bounds. *)
Definition uniform_contract : Prop :=
  forall lo hi n g a g',
    uniform lo hi n g = Some (a, g') ->
    Z.of_nat (length a) = n /\ n < 2 ^ 60 /\
    (fle lo hi -> Forall (fun v => fle lo v /\ fle v hi) a).

(** Both draws of a run of size [n] started in state [g] return. *)
Definition draws_return (n : Z) (g : rng) : Prop :=
  exists a g1 b g2,
    uniform (-1) 1 n g = Some (a, g1) /\ uniform (-1) 1 n g1 = Some (b, g2).

End Sampler.

Arguments ret {rng A} a g.
Arguments bind {rng A B} m k g.
Arguments run_pi_simulation {rng} uniform num_points g.
Arguments uniform_contract {rng} uniform.
Arguments draws_return {rng} uniform n g.

(** The flags, the count and the estimate that a run of positive size [n]
    computes from its two drawn arrays. *)
Definition result_of (n : Z) (a b : list float) : sim_result :=
  let flags := Np.less_equal (Np.add (Np.power2 a) (Np.power2 b)) 1 in
  mk_result a b flags
            (PyFloat (Np.true_divide (Np.int64_mul 4 (Np.sum flags)) n))
            (Np.sum flags) n.

(** *** A replayed random source

    A generator whose state is the list of draws still to come: a draw of
    size [n] hands out the next [n] recorded values, and raises when the
    size is not a valid array size, when the record is too short, or when a
    recorded value does not fit the requested interval. *)
Definition replay : Type := list float.

Definition in_interval (lo hi v : float) : bool :=
  ((lo <=? v) && (v <=? hi))%float.

Definition replay_uniform (lo hi : float) (n : Z) (g : replay)
  : option (list float * replay) :=
  let k := Z.to_nat n in
  if (0 <=? n) && (n <? 2 ^ 60) && (k <=? length g)%nat
     && forallb (in_interval lo hi) (firstn k g)
  then Some (firstn k g, skipn k g)
  else None.

(** The four sample points (1,0), (0,1), (1,1), (0.1,0.1): the x draw comes
    first, then the y draw. *)
Definition stand_in : replay :=
  [1; 0; 1; 0x1.999999999999ap-4; 0; 1; 1; 0x1.999999999999ap-4]%float.

(** What a run of size 4 computes from the replayed sample points. *)
Definition stand_in_result : sim_result :=
  result_of 4 [1; 0; 1; 0.1]%float [0; 1; 1; 0.1]%float.

(** ** Python's number formatting, as the f-strings of the renderer use it *)

Module Fmt.

(** Decimal digits of a natural number. *)
Definition digits (n : Z) : string :=
  DecimalString.NilZero.string_of_uint (N.to_uint (Z.to_N n)).

(** Walks the digits from the units upwards and puts a comma before every
    group of three that has digits to its left. *)
Fixpoint group3 (i : nat) (rev : list ascii) (acc : list ascii) : list ascii :=
  match rev with
  | [] => acc
  | d :: rest =>
      group3 (S i) rest
        (if (0 <? i)%nat && (i mod 3 =? 0)%nat
         then d :: ","%char :: acc
         else d :: acc)
  end.

(** The text of [f"{z:,}"] for an integer.  That the conversion raises
    for an integer with too many digits is [Py.str_raises], below. *)
Definition thousands (z : Z) : string :=
  let body :=
    string_of_list_ascii
      (group3 0 (rev (list_ascii_of_string (digits (Z.abs z)))) []) in
  if (z <? 0)%Z then "-" ++ body else body.

(** Pads a digit string with zeros on the left up to [w] characters. *)
Fixpoint zfill (w : nat) (s : string) : string :=
  if (String.length s <? w)%nat
  then match w with
       | O => s
       | S w' => "0" ++ zfill w' s
       end
  else s.

(** [num / den] rounded to the nearest integer, ties to even. *)
Definition round_half_even (num den : Z) : Z :=
  let q := num / den in
  let r := num mod den in
  match 2 * r ?= den with
  | Lt => q
  | Gt => q + 1
  | Eq => if Z.even q then q else q + 1
  end.

(** [f"{v:.6f}"] for a binary64: the exact value rounded to six decimals. *)
Definition fixed6_float (f : float) : string :=
  match Prim2SF f with
  | S754_nan => "nan"
  | S754_infinity s => if s then "-inf" else "inf"
  | S754_zero s => if s then "-0.000000" else "0.000000"
  | S754_finite s m e =>
      let n :=
        if (0 <=? e)%Z then Z.pos m * 2 ^ e * 10 ^ 6
        else round_half_even (Z.pos m * 10 ^ 6) (2 ^ (- e)) in
      (if s then "-" else "")
        ++ digits (n / 10 ^ 6) ++ "." ++ zfill 6 (digits (n mod 10 ^ 6))
  end.

(** The text of [f"{v:.6f}"]: an [int] is converted to a float first.  That
    the conversion raises for an [int] beyond the range of the floats is
    [Py.fixed_raises], below. *)
Definition fixed6 (v : pynum) : string :=
  match v with
  | PyInt z => fixed6_float (Np.float_of_int z)
  | PyFloat f => fixed6_float f
  end.

End Fmt.

(** ** The renderer

    A matplotlib figure is modelled by what has been put on its axes: the
    artists in the order they were added, the legend, and the settings. *)

Record bbox_props : Type := mk_bbox {
  boxstyle : string;
  fc : string;
  bbox_alpha : float
}.

Inductive artist : Type :=
| Scatter (xs ys : list float) (color : string) (alpha : float) (s : Z)
          (label : string)
| Text (tx ty : float) (txt : string) (va ha : string)
       (bbox : option bbox_props)
| Circle (cx cy radius : float) (color : string) (fill : bool)
         (linewidth : Z) (label : string)
| Rectangle (rx ry width height : float) (color : string) (fill : bool)
            (linewidth : Z) (label : string).

Record legend_box : Type := mk_legend {
  entries : list (artist * string);
  loc : string
}.

Record axes : Type := mk_axes {
  children : list artist;
  legend : option legend_box;
  xlim : option (float * float);
  ylim : option (float * float);
  aspect : option (string * string);
  xlabel : string;
  ylabel : string;
  title : string;
  grid : option (bool * string * float)
}.

Record figure : Type := mk_figure {
  figsize : Z * Z;
  fig_axes : axes;
  tight : bool
}.

Module Ax.

(** The axes of a fresh [plt.subplots] figure. *)
Definition empty : axes :=
  mk_axes [] None None None None "" "" "" None.

Definition add_artist (a : artist) (ax : axes) : axes :=
  mk_axes (children ax ++ [a]) (legend ax) (xlim ax) (ylim ax) (aspect ax)
          (xlabel ax) (ylabel ax) (title ax) (grid ax).

(** The label under which an artist enters a legend: texts carry none, and
    matplotlib skips empty labels and labels that start with an
    underscore. *)
Definition label_of (a : artist) : option string :=
  let shown (l : string) :=
    match l with
    | EmptyString => None
    | String c _ => if Ascii.eqb c "_"%char then None else Some l
    end in
  match a with
  | Scatter _ _ _ _ _ l => shown l
  | Text _ _ _ _ _ _ => None
  | Circle _ _ _ _ _ _ l => shown l
  | Rectangle _ _ _ _ _ _ _ l => shown l
  end.

(** [ax.get_legend_handles_labels()]. *)
Definition get_legend_handles_labels (ax : axes) : list (artist * string) :=
  flat_map (fun a => match label_of a with
                     | Some l => [(a, l)]
                     | None => []
                     end) (children ax).

(** [ax.legend(handles=..., labels=..., loc=...)]: replaces the legend. *)
Definition set_legend (hl : list (artist * string)) (where_ : string)
           (ax : axes) : axes :=
  mk_axes (children ax) (Some (mk_legend hl where_)) (xlim ax) (ylim ax)
          (aspect ax) (xlabel ax) (ylabel ax) (title ax) (grid ax).

(** [ax.legend(loc=...)]: the legend of the artists labelled so far. *)
Definition auto_legend (where_ : string) (ax : axes) : axes :=
  set_legend (get_legend_handles_labels ax) where_ ax.

Definition set_xlim (lo hi : float) (ax : axes) : axes :=
  mk_axes (children ax) (legend ax) (Some (lo, hi)) (ylim ax) (aspect ax)
          (xlabel ax) (ylabel ax) (title ax) (grid ax).

Definition set_ylim (lo hi : float) (ax : axes) : axes :=
  mk_axes (children ax) (legend ax) (xlim ax) (Some (lo, hi)) (aspect ax)
          (xlabel ax) (ylabel ax) (title ax) (grid ax).

Definition set_aspect (a adjustable : string) (ax : axes) : axes :=
  mk_axes (children ax) (legend ax) (xlim ax) (ylim ax)
          (Some (a, adjustable)) (xlabel ax) (ylabel ax) (title ax) (grid ax).

Definition set_xlabel (l : string) (ax : axes) : axes :=
  mk_axes (children ax) (legend ax) (xlim ax) (ylim ax) (aspect ax)
          l (ylabel ax) (title ax) (grid ax).

Definition set_ylabel (l : string) (ax : axes) : axes :=
  mk_axes (children ax) (legend ax) (xlim ax) (ylim ax) (aspect ax)
          (xlabel ax) l (title ax) (grid ax).

Definition set_title (l : string) (ax : axes) : axes :=
  mk_axes (children ax) (legend ax) (xlim ax) (ylim ax) (aspect ax)
          (xlabel ax) (ylabel ax) l (grid ax).

Definition set_grid (on : bool) (linestyle : string) (alpha : float)
           (ax : axes) : axes :=
  mk_axes (children ax) (legend ax) (xlim ax) (ylim ax) (aspect ax)
          (xlabel ax) (ylabel ax) (title ax) (Some (on, linestyle, alpha)).

End Ax.

(** ** Where Python's conversions of an [int] raise *)

Module Py.

(** CPython's default limit on the number of decimal digits of an [int]
    that is converted to text (Python 3.11 and later). *)
Definition int_max_str_digits : Z := 4300.

(** Writing an [int] in decimal, as [f"{z:,}"] does, raises [ValueError]
    when it has more digits than the limit. *)
Definition str_raises (z : Z) : bool :=
  10 ^ int_max_str_digits <=? Z.abs z.

(** Converting an [int] to a float raises [OverflowError] when the nearest
    binary64 is infinite. *)
Definition float_raises (z : Z) : bool :=
  match binary_normalize prec emax z 0 false with
  | S754_infinity _ => true
  | _ => false
  end.

(** A float format such as [f"{v:.6f}"], or a float operation such as
    [v - math.pi], raises on an [int] that does not convert, and never on
    a float. *)
Definition fixed_raises (v : pynum) : bool :=
  match v with
  | PyInt z => float_raises z
  | PyFloat _ => false
  end.

(** The f-strings that show the two counts and the estimate raise when
    one of their conversions does. *)
Definition format_raises (estimate : pynum) (inside total : Z) : bool :=
  str_raises inside || str_raises total || fixed_raises estimate.

End Py.

(** [math.pi]. *)
Definition math_pi : float := 0x1.921fb54442d18p+1%float.

(** The line break of the annotation's f-string. *)
Definition nl : string := String (ascii_of_nat 10) EmptyString.

(** The annotation box of a run with points, for values whose formatting
    does not raise. *)
Definition annotation (pi_estimate : pynum) (points_inside points_total : Z)
  : artist :=
  Text (-1.05) 1.05
       ("Points Inside: " ++ Fmt.thousands points_inside ++ nl
        ++ "Total Points: " ++ Fmt.thousands points_total ++ nl
        ++ "Estimate for π: " ++ Fmt.fixed6 pi_estimate ++ nl
        ++ "Actual π: " ++ Fmt.fixed6_float math_pi)
       "top" "left"
       (Some (mk_bbox "round,pad=0.5" "wheat" 0.8)).

(** The message drawn instead of the points of an empty run. *)
Definition placeholder : artist :=
  Text 0 0 "No points generated" "center" "center" None.

(** The first [if] of [plot_simulation]: the two scatters, the annotation
    and a first legend, or the placeholder.  [None] is the [IndexError] of a
    mask whose shape differs from the array's, or the error of a value of
    the annotation that cannot be formatted. *)
Definition draw_points (x y : list float) (inside_circle : list bool)
           (pi_estimate : pynum) (points_inside points_total : Z)
           (ax : axes) : option axes :=
  if points_total >? 0 then
    match Np.mask x inside_circle, Np.mask y inside_circle,
          Np.mask x (Np.invert inside_circle),
          Np.mask y (Np.invert inside_circle) with
    | Some xi, Some yi, Some xo, Some yo =>
        let ax := Ax.add_artist
                    (Scatter xi yi "blue" 0.5 5 "Inside Circle") ax in
        let ax := Ax.add_artist
                    (Scatter xo yo "red" 0.5 5 "Outside Circle") ax in
        if Py.format_raises pi_estimate points_inside points_total then None
        else
          let ax := Ax.add_artist
                      (annotation pi_estimate points_inside points_total)
                      ax in
          Some (Ax.auto_legend "upper right" ax)
    | _, _, _, _ => None
    end
  else Some (Ax.add_artist placeholder ax).

Definition plot_simulation (x y : list float) (inside_circle : list bool)
           (pi_estimate : pynum) (points_inside points_total : Z)
  : option figure :=
  match draw_points x y inside_circle pi_estimate points_inside points_total
                    Ax.empty with
  | None => None
  | Some ax =>
      let circle :=
        Circle 0 0 1 "green" false 2 "Circle Boundary (r=1)" in
      let square :=
        Rectangle (-1) (-1) 2 2 "black" false 2 "Square Boundary" in
      let ax := Ax.add_artist circle ax in
      let ax := Ax.add_artist square ax in
      let ax := Ax.set_xlim (-1.1) 1.1 ax in
      let ax := Ax.set_ylim (-1.1) 1.1 ax in
      let ax := Ax.set_aspect "equal" "box" ax in
      let ax := Ax.set_xlabel "X-coordinate" ax in
      let ax := Ax.set_ylabel "Y-coordinate" ax in
      if Py.str_raises points_total then None
      else
        let ax := Ax.set_title
                    ("Monte Carlo Estimation of Pi (N = "
                     ++ Fmt.thousands points_total ++ ")") ax in
        let ax := Ax.set_grid true "--" 0.6 ax in
        let ax :=
          if points_total >? 0
          then Ax.set_legend (Ax.get_legend_handles_labels ax)
                             "upper right" ax
          else ax in
        Some (mk_figure (8, 8) ax true)
  end.

(** Rendering the outcome of a run, as the application does. *)
Definition render (r : sim_result) : option figure :=
  plot_simulation (x r) (y r) (inside_circle r) (pi_estimate r)
                  (points_inside r) (points_total r).

(** *** What a figure shows *)

Definition is_scatter (a : artist) : bool :=
  match a with Scatter _ _ _ _ _ _ => true | _ => false end.

(** An annotation box is a text drawn inside a box. *)
Definition is_boxed_text (a : artist) : bool :=
  match a with Text _ _ _ _ _ (Some _) => true | _ => false end.

(** A text centred on the middle of the plot. *)
Definition is_centered_text (msg : string) (a : artist) : bool :=
  match a with
  | Text tx ty txt va ha None =>
      (tx =? 0)%float && (ty =? 0)%float && String.eqb txt msg
      && String.eqb va "center" && String.eqb ha "center"
  | _ => false
  end.

(** ** Rounding to nearest, ties to even

    The conversions and the division of binary64 round an exact quotient
    [N / D] of integers: they keep its integer part in a shift record and
    decide from the remainder whether to go up.  The definitions below name
    these steps, so that the results of [binary_normalize] and [SFdiv] can be
    stated in integer arithmetic. *)

(** Where [r / D] lies between 0 and 1, for [0 <= r < D]: at 0, below, at
    or above one half. *)
Definition location_of (r D : Z) : location :=
  if r =? 0 then loc_Exact else loc_Inexact (2 * r ?= D).

(** The shift record of the quotient [N / D]. *)
Definition record_of (N D : Z) : shr_record :=
  shr_record_of_loc (N / D) (location_of (N mod D) D).

(** [N / D] rounded to the nearest integer, ties to even. *)
Definition round_div (N D : Z) : Z :=
  round_nearest_even (N / D) (location_of (N mod D) D).

(** The binary64 of a rounded mantissa [m] at exponent [e]: a mantissa that
    rounding carried up to [2^53] is brought back to 53 bits. *)
Definition renormalize (m e : Z) : spec_float :=
  if m =? 2 ^ 53 then S754_finite false (2 ^ 52) (e + 1)
  else S754_finite false (Z.to_pos m) e.

(** By how many bits an integer of [d] binary digits is shifted left, or
    right, to get a 53-bit mantissa. *)
Definition lshift (d : Z) : Z := Z.max (53 - d) 0.

Definition rshift (d : Z) : Z := Z.max (d - 53) 0.

(** The value of the binary64 nearest to a positive integer [z]. *)
Definition nearest53 (z : Z) : Z :=
  round_div z (2 ^ rshift (Zdigits2 z)) * 2 ^ rshift (Zdigits2 z).

(** An estimate between 0 and 4, both included. *)
Definition estimate_in_range (v : pynum) : Prop :=
  match v with
  | PyInt z => 0 <= z <= 4
  | PyFloat f => fle 0 f /\ fle f 4
  end.

(** The points that a figure draws in a given colour. *)
Definition points_of (colour : string) (a : artist) : list (float * float) :=
  match a with
  | Scatter xs ys c _ _ _ => if String.eqb c colour then combine xs ys else []
  | _ => []
  end.

Definition drawn_in (colour : string) (fig : figure) : list (float * float) :=
  flat_map (points_of colour) (children (fig_axes fig)).

(** The labels of a figure's legend, in order. *)
Definition legend_labels (fig : figure) : option (list string) :=
  option_map (fun l => map snd (entries l)) (legend (fig_axes fig)).

(** The test of the unit disk on one point, as the sampler computes it. *)
Definition in_disk (p : float * float) : bool :=
  (fst p * fst p + snd p * snd p <=? 1)%float.

(** ** The application script

    The part of the script that has behaviour: the size chosen with the
    slider, and what the two placeholders of the page show after a script
    run.  The static texts of the page are left out. *)

(** What a streamlit placeholder shows. *)
Inductive element : Type :=
| Cleared
| Markdown (body : string)
| Info (body : string)
| Pyplot (fig : figure).

Record page : Type := mk_page {
  results_placeholder : element;
  plot_placeholder : element
}.

(** [n_points = 10**n_points_slider], for the non-negative integers that
    the slider can return. *)
Definition n_points (n_points_slider : Z) : Z := 10 ^ n_points_slider.

(** The value of a Python number in a float operation. *)
Definition to_float (v : pynum) : float :=
  match v with
  | PyInt z => Np.float_of_int z
  | PyFloat f => f
  end.

Module Fmt8.

(** [f"{v:.8f}"] for a binary64: as [Fmt.fixed6_float], with eight
    decimals. *)
Definition fixed8_float (f : float) : string :=
  match Prim2SF f with
  | S754_nan => "nan"
  | S754_infinity s => if s then "-inf" else "inf"
  | S754_zero s => if s then "-0.00000000" else "0.00000000"
  | S754_finite s m e =>
      let n :=
        if (0 <=? e)%Z then Z.pos m * 2 ^ e * 10 ^ 8
        else Fmt.round_half_even (Z.pos m * 10 ^ 8) (2 ^ (- e)) in
      (if s then "-" else "")
        ++ Fmt.digits (n / 10 ^ 8) ++ "." ++ Fmt.zfill 8 (Fmt.digits (n mod 10 ^ 8))
  end.

Definition fixed8 (v : pynum) : string := fixed8_float (to_float v).

End Fmt8.

(** The text of the results panel, for values whose formatting does not
    raise. *)
Definition results_text (estimate : pynum) (inside_count total_count : Z)
  : string :=
  nl ++ "    ### Simulation Results:" ++ nl
  ++ "    *   **Total points generated:** " ++ Fmt.thousands total_count ++ nl
  ++ "    *   **Points inside the circle:** " ++ Fmt.thousands inside_count
  ++ nl
  ++ "    *   **Estimated value of π:** `" ++ Fmt8.fixed8 estimate ++ "`" ++ nl
  ++ "    *   **Actual value of π:** `" ++ Fmt8.fixed8_float math_pi ++ "`"
  ++ nl
  ++ "    *   **Difference:** `"
  ++ Fmt8.fixed8_float (abs (to_float estimate - math_pi)) ++ "`" ++ nl
  ++ "    ".

Definition start_message : string :=
  "Adjust the slider and click 'Run Simulation' in the sidebar to start.".

Section App.

Variable rng : Type.
Variable uniform : float -> float -> Z -> rng -> option (list float * rng).

(** One run of the script, for the slider value and the state of the
    button: what the page shows afterwards, or [None] when the script
    raises. *)
Definition app (n_points_slider : Z) (run_simulation : bool)
           (g : rng) : option (page * rng) :=
  if run_simulation then
    match run_pi_simulation uniform (n_points n_points_slider) g with
    | None => None
    | Some (r, g') =>
        if Py.format_raises (pi_estimate r) (points_inside r)
                            (points_total r)
        then None
        else
          let results :=
            Markdown (results_text (pi_estimate r) (points_inside r)
                                   (points_total r)) in
          match plot_simulation (x r) (y r) (inside_circle r)
                                (pi_estimate r) (points_inside r)
                                (points_total r) with
          | None => None
          | Some fig => Some (mk_page results (Pyplot fig), g')
          end
    end
  else Some (mk_page (Info start_message) Cleared, g).

End App.

Arguments app {rng} uniform n_points_slider run_simulation g.

(** *** Sample inputs

    Recorded draws and the figure of the stand-in run, on which the
    properties below are exercised. *)

(** The figure of the stand-in run. *)
Definition stand_in_fig : figure :=
  match render stand_in_result with
  | Some fig => fig
  | None => mk_figure (0, 0) Ax.empty false
  end.

(** The stand-in points with their coordinates swapped. *)
Definition swapped : replay :=
  [0; 1; 1; 0x1.999999999999ap-4; 1; 0; 1; 0x1.999999999999ap-4]%float.

Definition swapped_result : sim_result :=
  result_of 4 [0; 1; 1; 0.1]%float [1; 0; 1; 0.1]%float.

(** Four points at the centre, and ten points on the diagonal for the
    smallest size of the slider. *)
Definition centre : replay := repeat 0%float 8.

Definition centre_result : sim_result :=
  result_of 4 (repeat 0%float 4) (repeat 0%float 4).


(** * Properties *)

(** Exposes the fields of the result computed from two draws. *)
Ltac fields :=
  unfold result_of in *;
  cbn [x y inside_circle pi_estimate points_inside points_total] in *.

(** ** Integers, lists and comparisons *)

Lemma int64_wrap_small (z : Z) :
  - 2 ^ 63 <= z < 2 ^ 63 -> Np.int64_wrap z = z.
Proof.
  intros Hz. unfold Np.int64_wrap.
  rewrite Z.mod_small by lia. lia.
Qed.

Lemma count_true_le_length (m : list bool) :
  (count_occ bool_dec m true <= length m)%nat.
Proof.
  induction m as [|b m IH]; simpl; [lia|].
  destruct (bool_dec b true); lia.
Qed.

Lemma sum_small (m : list bool) :
  Z.of_nat (length m) < 2 ^ 63 ->
  Np.sum m = Z.of_nat (count_occ bool_dec m true).
Proof.
  intros Hm. unfold Np.sum. apply int64_wrap_small.
  pose proof (count_true_le_length m). lia.
Qed.

Lemma length_power2 (a : list float) : length (Np.power2 a) = length a.
Proof. apply length_map. Qed.

Lemma length_add (a b : list float) :
  length (Np.add a b) = Nat.min (length a) (length b).
Proof. unfold Np.add. now rewrite length_map, length_combine. Qed.

Lemma length_less_equal (a : list float) (c : float) :
  length (Np.less_equal a c) = length a.
Proof. apply length_map. Qed.

Lemma length_flags (a b : list float) :
  length a = length b ->
  length (Np.less_equal (Np.add (Np.power2 a) (Np.power2 b)) 1) = length a.
Proof.
  intros Hab.
  rewrite length_less_equal, length_add, !length_power2. lia.
Qed.

(** The flag at an index is the comparison computed from the two coordinates
    at that index. *)
Lemma nth_error_flags (a b : list float) (i : nat) (xi yi : float) :
  nth_error a i = Some xi ->
  nth_error b i = Some yi ->
  nth_error (Np.less_equal (Np.add (Np.power2 a) (Np.power2 b)) 1) i
  = Some (xi * xi + yi * yi <=? 1)%float.
Proof.
  revert b i.
  induction a as [|u a IH]; intros [|v b] [|i]; simpl; try discriminate.
  - now intros [= ->] [= ->].
  - intros Ha Hb. now apply IH.
Qed.

(** A mask of the array's length selects without error. *)
Lemma mask_same_length (a : list float) (m : list bool) :
  length a = length m -> Np.mask a m = Some (Np.select a m).
Proof.
  intros E. unfold Np.mask. now rewrite E, Nat.eqb_refl.
Qed.

(** The counts of an array are far below the limit on decimal digits. *)
Lemma str_small (z : Z) :
  - 2 ^ 63 <= z < 2 ^ 63 -> Py.str_raises z = false.
Proof.
  intros Hz. unfold Py.str_raises. apply Z.leb_gt.
  assert (10 ^ 19 < 10 ^ Py.int_max_str_digits) as H
    by (apply Z.pow_lt_mono_r; unfold Py.int_max_str_digits; lia).
  assert (2 ^ 63 < 10 ^ 19) as H' by reflexivity.
  lia.
Qed.

(** Equal binary64 values compare as [<=]. *)
Lemma feqb_leb (a b : float) :
  (a =? b)%float = true -> (a <=? b)%float = true.
Proof.
  rewrite eqb_spec, leb_spec. unfold SFeqb, SFleb.
  now destruct (SFcompare (Prim2SF a) (Prim2SF b)) as [[| |]|].
Qed.

(** ** Binary64 rounding, in integer arithmetic *)

(** An integer of [d] binary digits lies between [2^(d-1)] and [2^d]. *)
Lemma digits2_pos_bounds (p : positive) :
  2 ^ (Zpos (digits2_pos p) - 1) <= Zpos p < 2 ^ Zpos (digits2_pos p).
Proof.
  induction p as [p IH|p IH|]; simpl digits2_pos.
  - rewrite Pos2Z.inj_succ.
    replace (Z.succ (Zpos (digits2_pos p)) - 1)
      with (Z.succ (Zpos (digits2_pos p) - 1)) by lia.
    rewrite !Z.pow_succ_r by lia. lia.
  - rewrite Pos2Z.inj_succ.
    replace (Z.succ (Zpos (digits2_pos p)) - 1)
      with (Z.succ (Zpos (digits2_pos p) - 1)) by lia.
    rewrite !Z.pow_succ_r by lia. lia.
  - simpl. lia.
Qed.

(** The bounds determine the number of digits. *)
Lemma digits2_pos_unique (p : positive) (d : Z) :
  2 ^ (d - 1) <= Zpos p < 2 ^ d -> Zpos (digits2_pos p) = d.
Proof.
  intros [Hlo Hhi]. pose proof (digits2_pos_bounds p) as [Blo Bhi].
  set (d' := Zpos (digits2_pos p)) in *.
  assert (0 < d) as Hd.
  { destruct d as [|d|d]; [simpl in Hhi; lia|lia|].
    rewrite Z.pow_neg_r in Hhi by lia. lia. }
  destruct (Z.lt_trichotomy d' d) as [H|[H|H]]; [|assumption|].
  - assert (2 ^ d' <= 2 ^ (d - 1)) by (apply Z.pow_le_mono_r; lia). lia.
  - assert (2 ^ d <= 2 ^ (d' - 1)) by (apply Z.pow_le_mono_r; lia). lia.
Qed.

Lemma loc_of_record (m : Z) (l : location) :
  loc_of_shr_record (shr_record_of_loc m l) = l.
Proof. now destruct l as [|[| |]]. Qed.

Lemma shr_m_record (m : Z) (l : location) :
  shr_m (shr_record_of_loc m l) = m.
Proof. now destruct l as [|[| |]]. Qed.

(** One shift to the right halves the mantissa, remembers the bit shifted
    out and accumulates the bits lost before. *)
Lemma shr_1_spec (m : Z) (r s : bool) :
  0 <= m ->
  shr_1 (Build_shr_record m r s) = Build_shr_record (m / 2) (Z.odd m) (r || s).
Proof.
  intros Hm. rewrite <- Z.div2_div.
  destruct m as [|[p|p|]|p]; try reflexivity; lia.
Qed.

(** Shifting the record of [N / D] once gives the record of [N / (2 D)]. *)
Lemma shr_1_frac (N D : Z) :
  0 <= N -> 0 < D -> shr_1 (record_of N D) = record_of N (D * 2).
Proof.
  intros HN HD. unfold record_of.
  rewrite <- Z.div_div by lia.
  rewrite Z.rem_mul_r by lia.
  pose proof (Z.mod_pos_bound N D HD) as Hr.
  assert (0 <= N / D) as Hm by (apply Z.div_pos; lia).
  set (m := N / D) in *. set (r := N mod D) in *.
  rewrite (Zmod_odd m).
  assert (forall l, shr_1 (shr_record_of_loc m l)
                    = Build_shr_record (m / 2) (Z.odd m)
                        (match l with loc_Exact => false | _ => true end)) as E.
  { intros [|[| |]]; cbn [shr_record_of_loc]; now rewrite shr_1_spec. }
  rewrite E. clear E. unfold location_of.
  destruct (Z.odd m);
    destruct (Z.eqb_spec r 0);
    (match goal with |- context [?a =? 0] => destruct (Z.eqb_spec a 0) end);
    try lia;
    try (match goal with
         | |- context [?a ?= ?b] => destruct (Z.compare_spec a b)
         end); try lia; try reflexivity.
Qed.

(** Shifting it [p] times gives the record of [N / (D 2^p)]. *)
Lemma iter_shr_frac (p : positive) (N D : Z) :
  0 <= N -> 0 < D ->
  iter_pos shr_1 p (record_of N D) = record_of N (D * 2 ^ Zpos p).
Proof.
  intros HN. revert D.
  induction p as [p IH|p IH|]; intros D HD; cbn [iter_pos].
  - rewrite shr_1_frac, !IH by (try apply Z.mul_pos_pos; lia).
    f_equal. rewrite (Pos2Z.inj_xI p), Z.pow_add_r, Z.pow_twice_r by lia.
    change (2 ^ 1) with 2. ring.
  - rewrite !IH by (try apply Z.mul_pos_pos; lia).
    f_equal. rewrite (Pos2Z.inj_xO p), Z.pow_twice_r by lia. ring.
  - rewrite shr_1_frac by lia. reflexivity.
Qed.

Lemma shr_frac (N D e n : Z) :
  0 <= N -> 0 < D -> 0 <= n ->
  shr (record_of N D) e n = (record_of N (D * 2 ^ n), e + n).
Proof.
  intros HN HD Hn. unfold shr. destruct n as [|p|p]; [| |lia].
  - now rewrite Z.mul_1_r, Z.add_0_r.
  - now rewrite iter_shr_frac.
Qed.

(** [round_div] is within one of the quotient and does not cross an integer. *)
Lemma round_div_bounds (N D : Z) :
  0 < D -> N / D <= round_div N D <= N / D + 1.
Proof.
  intros HD. unfold round_div, location_of, round_nearest_even.
  destruct (N mod D =? 0); [lia|].
  destruct (2 * (N mod D) ?= D); [destruct (Z.even (N / D))|..]; lia.
Qed.

(** Rounding does not cross an integer bound. *)
Lemma round_div_le (N D c : Z) :
  0 < D -> N <= c * D -> round_div N D <= c.
Proof.
  intros HD Hc. unfold round_div, location_of, round_nearest_even.
  pose proof (Z.mod_pos_bound N D HD) as Hr.
  pose proof (Z.div_mod N D ltac:(lia)) as E.
  assert (N / D <= c) by nia.
  destruct (Z.eqb_spec (N mod D) 0) as [R|R]; [lia|].
  assert (N / D < c) by nia.
  destruct (2 * (N mod D) ?= D); [destruct (Z.even (N / D))|..]; lia.
Qed.

(** An exact quotient is not changed. *)
Lemma round_div_exact (c D : Z) : 0 < D -> round_div (c * D) D = c.
Proof.
  intros HD. unfold round_div, location_of.
  rewrite Z.mod_mul, Z.div_mul by lia. reflexivity.
Qed.

(** Rounding depends on the quotient only. *)
Lemma round_div_scale (N D c : Z) :
  0 < D -> 0 < c -> round_div (c * N) (c * D) = round_div N D.
Proof.
  intros HD Hc. unfold round_div, location_of.
  rewrite Z.div_mul_cancel_l, Z.mul_mod_distr_l by lia.
  destruct (Z.eqb_spec (N mod D) 0) as [R|R];
    destruct (Z.eqb_spec (c * (N mod D)) 0) as [R'|R']; try nia; try reflexivity.
  replace (2 * (c * (N mod D)) ?= c * D) with (2 * (N mod D) ?= D); [reflexivity|].
  replace (2 * (c * (N mod D))) with (c * (2 * (N mod D))) by lia.
  apply Zmult_compare_compat_l. lia.
Qed.

(** Rounding is monotone in the numerator. *)
Lemma round_div_mono (N1 N2 D : Z) :
  0 < D -> N1 <= N2 -> round_div N1 D <= round_div N2 D.
Proof.
  intros HD HN.
  pose proof (Z.div_le_mono N1 N2 D HD HN) as Hq.
  destruct (Z.eq_dec (N1 / D) (N2 / D)) as [E|E].
  - pose proof (Z.div_mod N1 D ltac:(lia)) as E1.
    pose proof (Z.div_mod N2 D ltac:(lia)) as E2.
    assert (N1 mod D <= N2 mod D) as Hr by nia.
    pose proof (Z.mod_pos_bound N1 D HD).
    pose proof (Z.mod_pos_bound N2 D HD).
    unfold round_div, location_of, round_nearest_even. rewrite <- E.
    destruct (Z.eqb_spec (N1 mod D) 0); destruct (Z.eqb_spec (N2 mod D) 0);
      try lia;
      repeat (match goal with
              | |- context [?a ?= ?b] => destruct (Z.compare_spec a b)
              end); try lia; destruct (Z.even (N1 / D)); lia.
  - pose proof (round_div_bounds N1 D HD). pose proof (round_div_bounds N2 D HD). lia.
Qed.

Lemma round_div_record (N D : Z) :
  round_nearest_even (shr_m (record_of N D)) (loc_of_shr_record (record_of N D))
  = round_div N D.
Proof. unfold record_of. now rewrite loc_of_record, shr_m_record. Qed.

Lemma Zdigits2_unique (m d : Z) :
  2 ^ (d - 1) <= m < 2 ^ d -> 0 < m -> Zdigits2 m = d.
Proof.
  intros Hm Hpos. destruct m as [|p|p]; try lia.
  now apply digits2_pos_unique.
Qed.

(** The exponent of a value in the normal range: no clipping at [emin]. *)
Lemma fexp_normal (d e : Z) :
  -1074 <= d + e - 53 -> fexp prec emax (d + e) - e = d - 53.
Proof. unfold fexp, SpecFloat.emin, prec, emax. lia. Qed.

(** Rounding a quotient of [53 + n] binary digits: [n] more bits are shifted
    out, the mantissa is rounded to nearest even, and a carry to [2^53]
    moves the exponent up by one. *)
Lemma round_aux_frac (N D e n : Z) :
  0 < D -> 0 <= n ->
  2 ^ (52 + n) <= N / D < 2 ^ (53 + n) ->
  -1074 <= e + n <= 970 ->
  binary_round_aux prec emax false (N / D) e (location_of (N mod D) D)
  = if round_div N (D * 2 ^ n) =? 2 ^ 53
    then S754_finite false (2 ^ 52) (e + n + 1)
    else S754_finite false (Z.to_pos (round_div N (D * 2 ^ n))) (e + n).
Proof.
  intros HD Hn Hq He.
  assert (0 < 2 ^ n) as Hpn by (apply Z.pow_pos_nonneg; lia).
  assert (0 < 2 ^ (52 + n)) as Hp52 by (apply Z.pow_pos_nonneg; lia).
  assert (0 <= N) as HN.
  { destruct (Z.le_gt_cases 0 N) as [H|H]; [assumption|].
    assert (N / D < 0) by (apply Z.div_lt_upper_bound; lia). lia. }
  unfold binary_round_aux, shr_fexp.
  rewrite (Zdigits2_unique (N / D) (53 + n))
    by (replace (53 + n - 1) with (52 + n) by lia; lia).
  rewrite fexp_normal by lia.
  replace (53 + n - 53) with n by lia.
  fold (record_of N D). rewrite shr_frac by lia.
  rewrite !round_div_record.
  assert (2 ^ 52 <= N / (D * 2 ^ n) < 2 ^ 53) as Hq'.
  { rewrite <- Z.div_div by lia. split.
    - apply Z.div_le_lower_bound; [lia|].
      rewrite <- Z.pow_add_r by lia. now rewrite Z.add_comm.
    - apply Z.div_lt_upper_bound; [lia|].
      rewrite <- Z.pow_add_r by lia. now rewrite Z.add_comm. }
  pose proof (round_div_bounds N (D * 2 ^ n) ltac:(lia)) as Hb.
  set (m1 := round_div N (D * 2 ^ n)) in *.
  destruct (Z.eqb_spec m1 (2 ^ 53)) as [E|E].
  - rewrite E.
    rewrite (Zdigits2_unique (2 ^ 53) 54) by (cbn; lia).
    rewrite fexp_normal by lia.
    change (54 - 53) with 1. change (2 ^ 53) with (2 ^ 52 * 2).
    cbn [shr shr_record_of_loc iter_pos].
    rewrite shr_1_spec by lia. rewrite Z.div_mul by lia.
    cbn [shr_m]. change (2 ^ 52) with (Z.pos (2 ^ 52)) at 1.
    cbv beta iota.
    destruct (Z.leb_spec (e + n + 1) (emax - prec)) as [_|H];
      [reflexivity|unfold emax, prec in H; lia].
  - assert (2 ^ 52 <= m1 < 2 ^ 53) as Hm1 by lia.
    rewrite (Zdigits2_unique m1 53) by (change (53 - 1) with 52; lia).
    rewrite fexp_normal by lia.
    change (53 - 53) with 0. cbn [shr shr_record_of_loc shr_m].
    destruct m1 as [|p|p]; try lia.
    destruct (Z.leb_spec (e + n) (emax - prec)) as [_|H];
      [reflexivity|unfold emax, prec in H; lia].
Qed.

Lemma round_aux_norm (N D e n : Z) :
  0 < D -> 0 <= n ->
  2 ^ (52 + n) <= N / D < 2 ^ (53 + n) ->
  -1074 <= e + n <= 970 ->
  binary_round_aux prec emax false (N / D) e (location_of (N mod D) D)
  = renormalize (round_div N (D * 2 ^ n)) (e + n).
Proof. apply round_aux_frac. Qed.

(** The result is a 53-bit mantissa at the exponent [e] or [e + 1], with the
    same value. *)
Lemma renormalize_spec (m1 e : Z) :
  2 ^ 52 <= m1 <= 2 ^ 53 ->
  exists (m : positive) (e' : Z),
    renormalize m1 e = S754_finite false m e' /\
    2 ^ 52 <= Zpos m < 2 ^ 53 /\
    ((e' = e /\ Zpos m = m1) \/ (e' = e + 1 /\ Zpos m * 2 = m1)).
Proof.
  intros Hm. unfold renormalize.
  destruct (Z.eqb_spec m1 (2 ^ 53)) as [E|E].
  - exists (2 ^ 52)%positive, (e + 1). subst m1.
    split; [reflexivity|]. split; [now cbn|]. right. now split.
  - exists (Z.to_pos m1), e.
    assert (0 < 2 ^ 52) as P52 by reflexivity.
    assert (0 < m1) by lia.
    rewrite Z2Pos.id by assumption.
    split; [reflexivity|]. split; [lia|]. left. now split.
Qed.

(** Appending [p] zero bits multiplies by [2^p]. *)
Lemma iter_xO (m p : positive) :
  Zpos (Pos.iter xO m p) = Zpos m * 2 ^ Zpos p.
Proof.
  induction p as [|p IH] using Pos.peano_ind.
  - cbn [Pos.iter]. rewrite Pos2Z.inj_xO. change (2 ^ 1) with 2. lia.
  - rewrite Pos.iter_succ, Pos2Z.inj_xO, IH, Pos2Z.inj_succ, Z.pow_succ_r by lia.
    ring.
Qed.

(** The same for an exact integer. *)
Lemma round_aux_int (N e n : Z) :
  0 <= n ->
  2 ^ (52 + n) <= N < 2 ^ (53 + n) ->
  -1074 <= e + n <= 970 ->
  binary_round_aux prec emax false N e loc_Exact
  = renormalize (round_div N (2 ^ n)) (e + n).
Proof.
  intros Hn HN He.
  pose proof (round_aux_norm N 1 e n) as H.
  rewrite Z.div_1_r, Z.mod_1_r, Z.mul_1_l in H.
  apply H; lia.
Qed.

(** The conversion of a positive integer below [2^62]: a shift to 53 bits,
    to the left exactly, to the right with rounding. *)
Lemma int_to_float_round (z : Z) :
  1 <= z < 2 ^ 62 ->
  binary_normalize prec emax z 0 false
  = renormalize (round_div (z * 2 ^ lshift (Zdigits2 z)) (2 ^ rshift (Zdigits2 z)))
           (rshift (Zdigits2 z) - lshift (Zdigits2 z)).
Proof.
  intros Hz. destruct z as [|p|p]; try lia.
  pose proof (digits2_pos_bounds p) as Hd.
  cbn [binary_normalize Zdigits2]. unfold binary_round.
  set (d := Zpos (digits2_pos p)) in *.
  assert (1 <= d <= 62) as Hd62.
  { split; [unfold d; lia|].
    destruct (Z.le_gt_cases d 62) as [H|H]; [assumption|].
    assert (2 ^ 62 <= 2 ^ (d - 1)) by (apply Z.pow_le_mono_r; lia). lia. }
  replace (fexp prec emax (d + 0)) with (d - 53)
    by (unfold fexp, SpecFloat.emin, prec, emax; lia).
  unfold shl_align, lshift, rshift.
  destruct (d - 53 - 0) as [|q|q] eqn:Eq.
  - replace (Z.max (53 - d) 0) with 0 by lia.
    replace (Z.max (d - 53) 0) with 0 by lia.
    rewrite Z.mul_1_r.
    rewrite (round_aux_int (Zpos p) 0 0); [reflexivity|lia| |lia].
    replace d with 53 in Hd by lia. exact Hd.
  - replace (Z.max (53 - d) 0) with 0 by lia.
    replace (Z.max (d - 53) 0) with (d - 53) by lia.
    rewrite Z.mul_1_r.
    rewrite (round_aux_int (Zpos p) 0 (d - 53)); [f_equal; lia|lia| |lia].
    replace (52 + (d - 53)) with (d - 1) by lia.
    replace (53 + (d - 53)) with d by lia. exact Hd.
  - replace (Z.max (53 - d) 0) with (Zpos q) by lia.
    replace (Z.max (d - 53) 0) with 0 by lia.
    rewrite iter_xO.
    rewrite (round_aux_int (Zpos p * 2 ^ Zpos q) (d - 53) 0);
      [f_equal; lia|lia| |lia].
    replace (52 + 0) with ((d - 1) + Zpos q) by lia.
    replace (53 + 0) with (d + Zpos q) by lia.
    rewrite !Z.pow_add_r by lia.
    assert (0 < 2 ^ Zpos q) by (apply Z.pow_pos_nonneg; lia).
    nia.
Qed.

Lemma Zdigits2_bounds (z : Z) :
  0 < z -> 2 ^ (Zdigits2 z - 1) <= z < 2 ^ Zdigits2 z /\ 1 <= Zdigits2 z.
Proof.
  intros Hz. destruct z as [|p|p]; try lia.
  cbn [Zdigits2]. split; [apply digits2_pos_bounds|lia].
Qed.

Lemma Zdigits2_mono (u w : Z) :
  0 < u -> u <= w -> Zdigits2 u <= Zdigits2 w.
Proof.
  intros Hu Huw.
  destruct (Zdigits2_bounds u Hu) as [[Lu _] Du].
  destruct (Zdigits2_bounds w ltac:(lia)) as [[_ Uw] Dw].
  destruct (Z.le_gt_cases (Zdigits2 u) (Zdigits2 w)) as [H|H]; [assumption|].
  assert (2 ^ Zdigits2 w <= 2 ^ (Zdigits2 u - 1))
    by (apply Z.pow_le_mono_r; lia).
  lia.
Qed.

Lemma Zdigits2_lt_62 (z : Z) : 0 < z < 2 ^ 62 -> Zdigits2 z <= 62.
Proof.
  intros Hz. destruct (Zdigits2_bounds z ltac:(lia)) as [[L _] D].
  destruct (Z.le_gt_cases (Zdigits2 z) 62) as [H|H]; [assumption|].
  assert (2 ^ 62 <= 2 ^ (Zdigits2 z - 1)) by (apply Z.pow_le_mono_r; lia).
  lia.
Qed.

Lemma round_div_1 (z : Z) : round_div z 1 = z.
Proof. rewrite <- (Z.mul_1_r z) at 1. now apply round_div_exact. Qed.

(** An integer of at most 53 bits is converted exactly. *)
Lemma nearest53_small (z : Z) : 0 < z -> Zdigits2 z <= 53 -> nearest53 z = z.
Proof.
  intros Hz Hd. unfold nearest53, rshift.
  replace (Z.max (Zdigits2 z - 53) 0) with 0 by lia.
  change (2 ^ 0) with 1. rewrite round_div_1. lia.
Qed.

(** [nearest53 z] stays within the binade of [z]. *)
Lemma nearest53_bounds (z : Z) :
  0 < z -> 2 ^ (Zdigits2 z - 1) <= nearest53 z <= 2 ^ Zdigits2 z.
Proof.
  intros Hz. destruct (Zdigits2_bounds z Hz) as [[L U] D].
  unfold nearest53. set (d := Zdigits2 z) in *. set (r := rshift d).
  assert (0 <= r <= d - 1) as Hr by (unfold r, rshift; lia).
  assert (0 < 2 ^ r) as Pr by (apply Z.pow_pos_nonneg; lia).
  split.
  - replace (d - 1) with ((d - 1 - r) + r) by lia.
    rewrite Z.pow_add_r by lia.
    apply Z.mul_le_mono_nonneg_r; [lia|].
    pose proof (round_div_bounds z (2 ^ r) Pr) as [B _].
    etransitivity; [|exact B].
    apply Z.div_le_lower_bound; [lia|].
    rewrite Z.mul_comm, <- Z.pow_add_r by lia.
    now replace (d - 1 - r + r) with (d - 1) by lia.
  - replace (2 ^ d) with (2 ^ (d - r) * 2 ^ r)
      by (rewrite <- Z.pow_add_r by lia; f_equal; lia).
    apply Z.mul_le_mono_nonneg_r; [lia|].
    apply round_div_le; [lia|].
    rewrite <- Z.pow_add_r by lia.
    replace (d - r + r) with d by lia. lia.
Qed.

(** The conversion is monotone. *)
Lemma nearest53_mono (u w : Z) : 0 < u -> u <= w -> nearest53 u <= nearest53 w.
Proof.
  intros Hu Huw.
  pose proof (Zdigits2_mono u w Hu Huw) as Hd.
  destruct (Z.eq_dec (Zdigits2 u) (Zdigits2 w)) as [E|E].
  - unfold nearest53. rewrite E.
    assert (0 < 2 ^ rshift (Zdigits2 w))
      by (apply Z.pow_pos_nonneg; unfold rshift; lia).
    apply Z.mul_le_mono_nonneg_r; [lia|].
    now apply round_div_mono.
  - pose proof (nearest53_bounds u Hu) as [_ Bu].
    pose proof (nearest53_bounds w ltac:(lia)) as [Bw _].
    destruct (Zdigits2_bounds u Hu) as [_ Du].
    assert (2 ^ Zdigits2 u <= 2 ^ (Zdigits2 w - 1))
      by (apply Z.pow_le_mono_r; lia).
    lia.
Qed.

Lemma Zdigits2_mul4 (n : Z) : 0 < n -> Zdigits2 (4 * n) = Zdigits2 n + 2.
Proof.
  intros Hn. destruct (Zdigits2_bounds n Hn) as [[L U] D].
  apply Zdigits2_unique; [|lia].
  replace (Zdigits2 n + 2 - 1) with (Z.succ (Z.succ (Zdigits2 n - 1))) by lia.
  replace (Zdigits2 n + 2) with (Z.succ (Z.succ (Zdigits2 n))) by lia.
  rewrite !Z.pow_succ_r by lia. lia.
Qed.

(** The conversion commutes with the multiplication by four. *)
Lemma nearest53_mul4 (n : Z) : 0 < n -> nearest53 (4 * n) = 4 * nearest53 n.
Proof.
  intros Hn. destruct (Zdigits2_bounds n Hn) as [_ D].
  unfold nearest53. rewrite Zdigits2_mul4 by assumption.
  set (d := Zdigits2 n) in *. unfold rshift.
  destruct (Z.le_gt_cases 53 d) as [H|H].
  - replace (Z.max (d + 2 - 53) 0) with (2 + (d - 53)) by lia.
    replace (Z.max (d - 53) 0) with (d - 53) by lia.
    rewrite Z.pow_add_r by lia. change (2 ^ 2) with 4.
    rewrite round_div_scale; [ring|apply Z.pow_pos_nonneg; lia|lia].
  - replace (Z.max (d - 53) 0) with 0 by lia.
    change (2 ^ 0) with 1. rewrite round_div_1.
    set (s := Z.max (d + 2 - 53) 0).
    assert (0 <= s <= 1) as Hs by (unfold s; lia).
    assert (0 < 2 ^ s) by (apply Z.pow_pos_nonneg; lia).
    assert (4 * n = (n * 2 ^ (2 - s)) * 2 ^ s) as E.
    { rewrite <- Z.mul_assoc, <- Z.pow_add_r by lia.
      replace (2 - s + s) with 2 by lia. change (2 ^ 2) with 4. lia. }
    rewrite E at 1. rewrite round_div_exact by assumption. lia.
Qed.

(** A positive integer below [2^62] converts to a normal binary64 whose
    value is [nearest53 z]. *)
Lemma int_to_float_normal (z : Z) :
  1 <= z < 2 ^ 62 ->
  exists (m : positive) (e : Z),
    binary_normalize prec emax z 0 false = S754_finite false m e /\
    2 ^ 52 <= Zpos m < 2 ^ 53 /\
    -52 <= e <= 10 /\
    Zpos m * 2 ^ (e + 52) = nearest53 z * 2 ^ 52.
Proof.
  intros Hz. rewrite int_to_float_round by assumption.
  destruct (Zdigits2_bounds z ltac:(lia)) as [[L U] D].
  pose proof (Zdigits2_lt_62 z ltac:(lia)) as D62.
  pose proof (nearest53_bounds z ltac:(lia)) as [VL VU].
  unfold nearest53 in *. unfold lshift, rshift in *.
  set (d := Zdigits2 z) in *.
  set (l := Z.max (53 - d) 0) in *. set (r := Z.max (d - 53) 0) in *.
  assert (0 < 2 ^ l) as Pl by (apply Z.pow_pos_nonneg; lia).
  assert (0 < 2 ^ r) as Pr by (apply Z.pow_pos_nonneg; lia).
  assert (2 ^ 52 <= round_div (z * 2 ^ l) (2 ^ r) <= 2 ^ 53
          /\ round_div (z * 2 ^ l) (2 ^ r) * 2 ^ (r - l + 52)
             = round_div z (2 ^ r) * 2 ^ r * 2 ^ 52) as [Hm1 Hv].
  { destruct (Z.le_gt_cases d 53) as [H|H].
    - replace r with 0 in * by lia. replace l with (53 - d) in * by lia.
      change (2 ^ 0) with 1 in *. rewrite !round_div_1.
      assert (2 ^ (d - 1) * 2 ^ (53 - d) = 2 ^ 52) as E1
        by (rewrite <- Z.pow_add_r by lia; f_equal; lia).
      assert (2 ^ d * 2 ^ (53 - d) = 2 ^ 53) as E2
        by (rewrite <- Z.pow_add_r by lia; f_equal; lia).
      split; [nia|].
      replace (0 - (53 - d) + 52) with (d - 1) by lia.
      rewrite <- E1. ring.
    - replace l with 0 in * by lia. replace r with (d - 53) in * by lia.
      change (2 ^ 0) with 1 in *. rewrite Z.mul_1_r in *.
      assert (2 ^ 52 * 2 ^ (d - 53) = 2 ^ (d - 1)) as E1
        by (rewrite <- Z.pow_add_r by lia; f_equal; lia).
      assert (2 ^ 53 * 2 ^ (d - 53) = 2 ^ d) as E2
        by (rewrite <- Z.pow_add_r by lia; f_equal; lia).
      split; [nia|].
      replace (d - 53 - 0 + 52) with ((d - 53) + 52) by lia.
      rewrite Z.pow_add_r by lia. ring. }
  destruct (renormalize_spec _ (r - l) Hm1) as (m & e' & -> & Bm & Alt).
  exists m, e'. split; [reflexivity|]. split; [assumption|].
  rewrite <- Hv.
  destruct Alt as [[-> <-]|[-> <-]].
  - split; [lia|reflexivity].
  - split; [lia|].
    replace (r - l + 1 + 52) with (Z.succ (r - l + 52)) by lia.
    rewrite Z.pow_succ_r by lia. ring.
Qed.

(** The location that the division computes from its remainder. *)
Lemma new_location_frac (D r : Z) :
  0 < D -> 0 <= r < D -> new_location D r = location_of r D.
Proof.
  intros HD Hr. unfold new_location, new_location_even, new_location_odd, location_of.
  destruct (Z.even D) eqn:Ev; [reflexivity|].
  destruct (Z.eqb_spec r 0); [reflexivity|].
  pose proof (Z.div_mod D 2 ltac:(lia)) as E.
  rewrite Zmod_even, Ev in E.
  destruct (Z.compare_spec (2 * r + 1) D);
    destruct (Z.compare_spec (2 * r) D); (reflexivity || lia).
Qed.

(** The quotient of two normal binary64 values, the first at most four
    times the second, is a binary64 that is at most four. *)
Lemma div_normal_le4 (ma mb : positive) (ea eb : Z) :
  2 ^ 52 <= Zpos ma < 2 ^ 53 ->
  2 ^ 52 <= Zpos mb < 2 ^ 53 ->
  -52 <= ea <= 10 -> -52 <= eb <= 10 ->
  Zpos ma * 2 ^ (ea + 52) <= 4 * (Zpos mb * 2 ^ (eb + 52)) ->
  exists (m : positive) (e : Z),
    SFdiv prec emax (S754_finite false ma ea) (S754_finite false mb eb)
    = S754_finite false m e /\
    (e < -50 \/ (e = -50 /\ Zpos m = 2 ^ 52)).
Proof.
  intros Ha Hb Hea Heb Hle.
  assert (2 ^ 52 = 4503599627370496) as P52 by reflexivity.
  assert (2 ^ 53 = 9007199254740992) as P53 by reflexivity.
  (* the exponents are at most two apart, and then the mantissas agree *)
  assert (ea - eb <= 2 /\ (ea - eb = 2 -> Zpos ma <= Zpos mb)) as [Ht Ht2].
  { assert (0 < 2 ^ (eb + 52)) as PX by (apply Z.pow_pos_nonneg; lia).
    split.
    - destruct (Z.le_gt_cases (ea - eb) 2) as [H|H]; [assumption|exfalso].
      assert (2 ^ 3 * 2 ^ (eb + 52) <= 2 ^ (ea + 52)).
      { rewrite <- Z.pow_add_r by lia. apply Z.pow_le_mono_r; lia. }
      change (2 ^ 3) with 8 in *. nia.
    - intros E. replace (ea + 52) with (2 + (eb + 52)) in Hle by lia.
      rewrite Z.pow_add_r in Hle by lia. change (2 ^ 2) with 4 in Hle. nia. }
  unfold SFdiv, SFdiv_core_binary. cbn [xorb].
  rewrite (Zdigits2_unique (Zpos ma) 53), (Zdigits2_unique (Zpos mb) 53)
    by (change (53 - 1) with 52; lia).
  replace (Z.min (fexp prec emax (53 + ea - (53 + eb))) (ea - eb))
    with (ea - eb - 53)
    by (unfold fexp, SpecFloat.emin, prec, emax; lia).
  replace (ea - eb - (ea - eb - 53)) with 53 by lia.
  rewrite Z.shiftl_mul_pow2 by lia.
  set (N := Zpos ma * 2 ^ 53). set (D := Zpos mb).
  assert (0 < D) as HD by (unfold D; lia).
  pose proof (Z.mod_pos_bound N D HD) as Hr.
  assert (Z.div_eucl N D = (N / D, N mod D)) as E
    by (unfold Z.div, Z.modulo; now destruct (Z.div_eucl N D)).
  rewrite E. rewrite new_location_frac by assumption.
  set (n := if Zpos ma <? Zpos mb then 0 else 1).
  assert (0 <= n <= 1) as Hn by (unfold n; destruct (_ <? _); lia).
  assert (2 ^ n = if Zpos ma <? Zpos mb then 1 else 2) as P2n
    by (unfold n; now destruct (_ <? _)).
  assert (2 ^ (52 + n) <= N / D < 2 ^ (53 + n)) as Hq.
  { rewrite !Z.pow_add_r, P2n by lia. unfold N, D. rewrite P52, P53.
    destruct (Z.ltb_spec (Zpos ma) (Zpos mb)); split;
      (apply Z.div_le_lower_bound || apply Z.div_lt_upper_bound); lia. }
  rewrite (round_aux_norm N D (ea - eb - 53) n) by lia.
  assert (2 ^ 52 <= round_div N (D * 2 ^ n) <= 2 ^ 53) as Hm1.
  { assert (0 < D * 2 ^ n) by (rewrite P2n; destruct (_ <? _); lia).
    split.
    - pose proof (round_div_bounds N (D * 2 ^ n) ltac:(assumption)) as [B _].
      etransitivity; [|exact B].
      apply Z.div_le_lower_bound; [assumption|].
      rewrite P2n, P52. unfold N, D. rewrite P53.
      destruct (Z.ltb_spec (Zpos ma) (Zpos mb)); lia.
    - apply round_div_le; [assumption|].
      rewrite P2n, P53. unfold N, D. rewrite P53.
      destruct (Z.ltb_spec (Zpos ma) (Zpos mb)); lia. }
  assert (ea - eb = 2 -> n = 1 -> round_div N (D * 2 ^ n) = 2 ^ 52) as Hfour.
  { intros T N1. specialize (Ht2 T).
    assert (Zpos ma = Zpos mb) as Eab
      by (unfold n in N1; destruct (Z.ltb_spec (Zpos ma) (Zpos mb)); lia).
    unfold N, D. rewrite Eab, N1.
    replace (Zpos mb * 2 ^ 53) with (2 ^ 52 * (Zpos mb * 2 ^ 1))
      by (rewrite P52, P53; lia).
    apply round_div_exact. lia. }
  destruct (renormalize_spec _ (ea - eb - 53 + n) Hm1) as (m & e' & -> & Bm & Alt).
  exists m, e'. split; [reflexivity|].
  destruct (Z.eq_dec (ea - eb) 2) as [T|T];
    destruct (Z.eq_dec n 1) as [N1|N1];
    try specialize (Hfour T N1); lia.
Qed.

(** Normal mantissas at these exponents are valid binary64 values. *)
Lemma valid_normal (m : positive) (e : Z) :
  2 ^ 52 <= Zpos m < 2 ^ 53 -> -52 <= e <= 10 ->
  valid_binary (S754_finite false m e) = true.
Proof.
  intros Hm He. unfold SpecFloat.valid_binary, bounded, canonical_mantissa.
  rewrite (digits2_pos_unique m 53) by (change (53 - 1) with 52; lia).
  apply andb_true_intro. split.
  - apply Z.eqb_eq. unfold fexp, SpecFloat.emin, prec, emax. lia.
  - apply Z.leb_le. unfold prec, emax. lia.
Qed.

(** The specification-level value of a converted integer. *)
Lemma Prim2SF_float_of_int (z : Z) :
  0 <= z < 2 ^ 62 ->
  Prim2SF (Np.float_of_int z) = binary_normalize prec emax z 0 false.
Proof.
  intros Hz. unfold Np.float_of_int. apply Prim2SF_SF2Prim.
  destruct (Z.eq_dec z 0) as [->|Hz0]; [reflexivity|].
  destruct (int_to_float_normal z ltac:(lia)) as (m & e & -> & Hm & He & _).
  now apply valid_normal.
Qed.

Lemma Prim2SF_zero : Prim2SF 0 = S754_zero false.
Proof. now vm_compute. Qed.

Lemma Prim2SF_four : Prim2SF 4 = S754_finite false (2 ^ 52) (-50).
Proof. now vm_compute. Qed.

(** Integers beyond 53 bits are rounded by the conversion, ties to even. *)
Example float_of_int_rounds :
  Np.float_of_int (2 ^ 53 + 1) = 9007199254740992%float /\
  Np.float_of_int (2 ^ 53 + 3) = 9007199254740996%float.
Proof. now vm_compute. Qed.

(** The estimate of a count [k] among [n] points: the binary64 quotient of
    [4 * k] by [n] lies between 0 and 4. *)
Lemma true_divide_range (k n : Z) :
  0 <= k <= n -> 1 <= n < 2 ^ 60 ->
  fle 0 (Np.true_divide (4 * k) n) /\ fle (Np.true_divide (4 * k) n) 4.
Proof.
  intros Hk Hn. unfold fle, Np.true_divide.
  assert (2 ^ 60 = 1152921504606846976) as P60 by reflexivity.
  assert (2 ^ 62 = 4611686018427387904) as P62 by reflexivity.
  rewrite !leb_spec, div_spec, !Prim2SF_float_of_int by lia.
  rewrite Prim2SF_zero, Prim2SF_four. unfold SF64div.
  destruct (int_to_float_normal n ltac:(lia)) as (mb & eb & -> & Hmb & Heb & Vb).
  destruct (Z.eq_dec k 0) as [->|Hk0]; [split; reflexivity|].
  destruct (int_to_float_normal (4 * k) ltac:(lia)) as (ma & ea & -> & Hma & Hea & Va).
  destruct (div_normal_le4 ma mb ea eb Hma Hmb Hea Heb) as (m & e & -> & He).
  - rewrite Va, Vb.
    pose proof (nearest53_mono (4 * k) (4 * n) ltac:(lia) ltac:(lia)) as Hm.
    rewrite (nearest53_mul4 n) in Hm by lia. lia.
  - split; [reflexivity|].
    unfold SFleb, SFcompare.
    destruct He as [He|[-> Em]].
    + now apply Z.compare_lt_iff in He as ->.
    + apply Pos2Z.inj in Em. subst m. reflexivity.
Qed.

(** ** The shape of a run *)

Section Runs.

Variable rng : Type.
Variable uniform : float -> float -> Z -> rng -> option (list float * rng).

(** A run with a non-positive size returns the sentinel and leaves the
    generator alone. *)
Lemma run_nonpos (n : Z) (g : rng) :
  n <= 0 -> run_pi_simulation uniform n g = Some (empty_result, g).
Proof.
  intros Hn. unfold run_pi_simulation.
  destruct (Z.leb_spec n 0) as [_|H]; [reflexivity|lia].
Qed.

(** A run with a positive size that returns has made its two draws, in
    this order, and returns what is computed from them. *)
Lemma run_pos (n : Z) (g g' : rng) (r : sim_result) :
  0 < n ->
  run_pi_simulation uniform n g = Some (r, g') ->
  exists a g1 b,
    uniform (-1) 1 n g = Some (a, g1) /\
    uniform (-1) 1 n g1 = Some (b, g') /\
    r = result_of n a b.
Proof.
  intros Hn. unfold run_pi_simulation, bind, ret.
  destruct (Z.leb_spec n 0) as [H|_]; [lia|].
  destruct (uniform (-1) 1 n g) as [[a g1]|] eqn:Ha; [|discriminate].
  destruct (uniform (-1) 1 n g1) as [[b g2]|] eqn:Hb; [|discriminate].
  destruct (Z.gtb_spec n 0) as [_|H]; [|lia].
  intros [= <- <-]. now exists a, g1, b.
Qed.

(** Conversely, two draws that return make the run return. *)
Lemma run_of_draws (n : Z) (g g1 g2 : rng) (a b : list float) :
  0 < n ->
  uniform (-1) 1 n g = Some (a, g1) ->
  uniform (-1) 1 n g1 = Some (b, g2) ->
  run_pi_simulation uniform n g = Some (result_of n a b, g2).
Proof.
  intros Hn Ha Hb. unfold run_pi_simulation, bind, ret.
  destruct (Z.leb_spec n 0) as [H|_]; [lia|].
  rewrite Ha, Hb.
  destruct (Z.gtb_spec n 0) as [_|H]; [reflexivity|lia].
Qed.

Hypothesis contract : uniform_contract uniform.

(** In every run that returns, the three arrays have [points_total]
    elements each, and that number is a valid array size. *)
Lemma run_lengths (n : Z) (g g' : rng) (r : sim_result) :
  run_pi_simulation uniform n g = Some (r, g') ->
  Z.of_nat (length (x r)) = points_total r /\
  Z.of_nat (length (y r)) = points_total r /\
  Z.of_nat (length (inside_circle r)) = points_total r /\
  0 <= points_total r < 2 ^ 60.
Proof.
  intros Hrun. destruct (Z.leb_spec n 0) as [Hn|Hn].
  - rewrite run_nonpos in Hrun by assumption.
    injection Hrun as <- _. simpl. lia.
  - destruct (run_pos n g g' r Hn Hrun) as (a & g1 & b & Ha & Hb & ->).
    destruct (contract _ _ _ _ _ _ Ha) as (La & Hlt & _).
    destruct (contract _ _ _ _ _ _ Hb) as (Lb & _ & _).
    simpl. rewrite length_flags by lia. lia.
Qed.

(** The counts and the estimate of a run can be formatted. *)
Lemma run_formats (n : Z) (g g' : rng) (r : sim_result) :
  run_pi_simulation uniform n g = Some (r, g') ->
  Py.format_raises (pi_estimate r) (points_inside r) (points_total r)
  = false /\
  Py.str_raises (points_total r) = false.
Proof.
  intros Hrun.
  destruct (run_lengths n g g' r Hrun) as (_ & _ & Lf & Hlt).
  assert (Py.str_raises (points_total r) = false) as Ht
    by (apply str_small; lia).
  split; [|exact Ht]. unfold Py.format_raises. rewrite Ht.
  destruct (Z.leb_spec n 0) as [Hn|Hn].
  - rewrite run_nonpos in Hrun by assumption.
    injection Hrun as <- _. reflexivity.
  - destruct (run_pos n g g' r Hn Hrun) as (a & g1 & b & _ & _ & ->).
    fields.
    pose proof (count_true_le_length
                  (Np.less_equal (Np.add (Np.power2 a) (Np.power2 b)) 1)).
    rewrite sum_small by lia. rewrite str_small by lia. reflexivity.
Qed.

End Runs.

(** ** The replayed source honours numpy's contract *)

Lemma replay_contract : uniform_contract replay_uniform.
Proof.
  intros lo hi n g a g' H. unfold replay_uniform in H.
  destruct (0 <=? n) eqn:H0; [|discriminate].
  destruct (n <? 2 ^ 60) eqn:H1; [|discriminate].
  destruct (Z.to_nat n <=? length g)%nat eqn:H2; [|discriminate].
  destruct (forallb (in_interval lo hi) (firstn (Z.to_nat n) g)) eqn:H3;
    [|discriminate].
  simpl in H. injection H as <- _.
  apply Z.leb_le in H0. apply Z.ltb_lt in H1. apply Nat.leb_le in H2.
  rewrite length_firstn, Nat.min_l by assumption.
  repeat split; [lia|assumption|].
  intros _. apply Forall_forall. intros v Hv.
  rewrite forallb_forall in H3. specialize (H3 v Hv).
  unfold in_interval in H3. apply andb_true_iff in H3. exact H3.
Qed.

(** ** The sampler/estimator *)

Section Estimator.

Variable rng : Type.
Variable uniform : float -> float -> Z -> rng -> option (list float * rng).
Hypothesis contract : uniform_contract uniform.

(** C1. In every run that returns, each point has one flag, and the flag
    of point [i] is true exactly when [x[i]*x[i] + y[i]*y[i] <= 1], the
    square, the sum and the comparison being those of binary64 as the
    program computes them; a point whose sum equals 1 is flagged inside. *)
Theorem inside_flag_iff (n : Z) (g g' : rng) (r : sim_result) :
  run_pi_simulation uniform n g = Some (r, g') ->
  length (inside_circle r) = length (x r) /\
  forall (i : nat) (xi yi : float),
    nth_error (x r) i = Some xi ->
    nth_error (y r) i = Some yi ->
    exists flag : bool,
      nth_error (inside_circle r) i = Some flag /\
      (flag = true <-> fle (xi * xi + yi * yi) 1) /\
      ((xi * xi + yi * yi =? 1)%float = true -> flag = true).
Proof.
  intros Hrun.
  destruct (run_lengths rng uniform contract n g g' r Hrun)
    as (Lx & Ly & Lf & _).
  split; [lia|].
  intros i xi yi Hx Hy.
  destruct (Z.leb_spec n 0) as [Hn|Hn].
  - rewrite run_nonpos in Hrun by assumption.
    injection Hrun as <- _. now destruct i.
  - destruct (run_pos rng uniform n g g' r Hn Hrun)
      as (a & g1 & b & _ & _ & ->).
    fields.
    exists (xi * xi + yi * yi <=? 1)%float.
    split; [now apply nth_error_flags|].
    split; [reflexivity|apply feqb_leb].
Qed.

(** C2. The estimate of a run with [points_total > 0] is a float, the
    quotient of [4 * points_inside] by [points_total] that IEEE 754
    prescribes for binary64: the two integers, converted to the nearest
    binary64 values, are divided with one rounding to nearest, ties to even
    ([4 * points_inside] does not wrap in [int64]).  The estimate is the
    [int] [0] when [points_total = 0], and the division is only ever
    performed with a positive divisor. *)
Theorem pi_estimate_formula (n : Z) (g g' : rng) (r : sim_result) :
  run_pi_simulation uniform n g = Some (r, g') ->
  (points_total r > 0 ->
   exists f : float,
     pi_estimate r = PyFloat f /\
     f = Np.true_divide (4 * points_inside r) (points_total r) /\
     Prim2SF f
     = SFdiv prec emax
         (binary_normalize prec emax (4 * points_inside r) 0 false)
         (binary_normalize prec emax (points_total r) 0 false)) /\
  (points_total r = 0 -> pi_estimate r = PyInt 0) /\
  (forall f : float, pi_estimate r = PyFloat f -> points_total r > 0).
Proof.
  intros Hrun.
  destruct (Z.leb_spec n 0) as [Hn|Hn].
  - rewrite run_nonpos in Hrun by assumption.
    injection Hrun as <- _. simpl.
    split; [lia|]. split; [reflexivity|discriminate].
  - destruct (run_lengths rng uniform contract n g g' r Hrun)
      as (_ & _ & Lf & Hlt).
    destruct (run_pos rng uniform n g g' r Hn Hrun)
      as (a & g1 & b & _ & _ & ->).
    fields.
    split; [|split; lia].
    intros _.
    pose proof (count_true_le_length
                  (Np.less_equal (Np.add (Np.power2 a) (Np.power2 b)) 1)).
    assert (2 ^ 60 = 1152921504606846976) as P60 by reflexivity.
    assert (2 ^ 62 = 4611686018427387904) as P62 by reflexivity.
    unfold Np.int64_mul. rewrite sum_small by lia.
    rewrite int64_wrap_small by lia.
    eexists. split; [reflexivity|]. split; [reflexivity|].
    unfold Np.true_divide.
    rewrite div_spec, !Prim2SF_float_of_int by lia.
    reflexivity.
Qed.

(** C3. For every [n >= 1], a run whose two draws return does return, and
    its x, y and flag sequences have exactly [n] elements each. *)
Theorem simulate_lengths (n : Z) (g : rng) :
  1 <= n ->
  draws_return uniform n g ->
  exists (r : sim_result) (g' : rng),
    run_pi_simulation uniform n g = Some (r, g') /\
    Z.of_nat (length (x r)) = n /\
    Z.of_nat (length (y r)) = n /\
    Z.of_nat (length (inside_circle r)) = n.
Proof.
  intros Hn (a & g1 & b & g2 & Ha & Hb).
  exists (result_of n a b), g2.
  split; [apply (run_of_draws rng uniform n g g1 g2); (lia || assumption)|].
  destruct (contract _ _ _ _ _ _ Ha) as (La & _ & _).
  destruct (contract _ _ _ _ _ _ Hb) as (Lb & _ & _).
  simpl. rewrite length_flags by lia. lia.
Qed.

(** C4. A run with [n = 0] returns, without drawing anything: empty x, y
    and flag sequences, no point inside, no point in total, estimate 0. *)
Theorem simulate_zero (g : rng) :
  exists r : sim_result,
    run_pi_simulation uniform 0 g = Some (r, g) /\
    x r = [] /\ y r = [] /\ inside_circle r = [] /\
    points_inside r = 0 /\ points_total r = 0 /\
    pi_estimate r = PyInt 0.
Proof.
  exists empty_result. repeat split.
Qed.

(** C5. In every run that returns, [points_inside] is the number of true
    flags, and it is at most [points_total]. *)
Theorem points_inside_count (n : Z) (g g' : rng) (r : sim_result) :
  run_pi_simulation uniform n g = Some (r, g') ->
  points_inside r = Z.of_nat (count_occ bool_dec (inside_circle r) true) /\
  points_inside r <= points_total r.
Proof.
  intros Hrun.
  destruct (run_lengths rng uniform contract n g g' r Hrun)
    as (_ & _ & Lf & Hlt).
  pose proof (count_true_le_length (inside_circle r)) as Hc.
  assert (points_inside r
          = Z.of_nat (count_occ bool_dec (inside_circle r) true)) as E.
  { destruct (Z.leb_spec n 0) as [Hn|Hn].
    - rewrite run_nonpos in Hrun by assumption.
      now injection Hrun as <- _.
    - destruct (run_pos rng uniform n g g' r Hn Hrun)
        as (a & g1 & b & _ & _ & ->).
      fields. apply sum_small. lia. }
  split; [exact E|lia].
Qed.

(** C6. When the two draws of a run of size 4 return the coordinates of
    the points (1,0), (0,1), (1,1), (0.1,0.1), the flags are
    [true, true, false, true], three points are inside and the estimate
    is 3.0. *)
Theorem stand_in_scenario (g g1 g2 : rng) :
  uniform (-1) 1 4 g = Some ([1; 0; 1; 0.1]%float, g1) ->
  uniform (-1) 1 4 g1 = Some ([0; 1; 1; 0.1]%float, g2) ->
  exists r : sim_result,
    run_pi_simulation uniform 4 g = Some (r, g2) /\
    inside_circle r = [true; true; false; true] /\
    points_inside r = 3 /\
    points_total r = 4 /\
    pi_estimate r = PyFloat 3.
Proof.
  intros Ha Hb. eexists. split.
  - apply (run_of_draws rng uniform 4 g g1 g2 _ _ eq_refl Ha Hb).
  - now vm_compute.
Qed.

(** C7. In every run that returns, all x and y coordinates lie in the
    closed interval [-1, 1]; when points are generated, x and then y are
    what two successive calls of the uniform generator with the bounds -1
    and 1 return. *)
Theorem coordinates_in_square (n : Z) (g g' : rng) (r : sim_result) :
  run_pi_simulation uniform n g = Some (r, g') ->
  Forall (fun v => fle (-1) v /\ fle v 1) (x r) /\
  Forall (fun v => fle (-1) v /\ fle v 1) (y r) /\
  (0 < n ->
   exists g1 : rng,
     uniform (-1) 1 n g = Some (x r, g1) /\
     uniform (-1) 1 n g1 = Some (y r, g')).
Proof.
  intros Hrun.
  destruct (Z.leb_spec n 0) as [Hn|Hn].
  - rewrite run_nonpos in Hrun by assumption.
    injection Hrun as <- _. simpl.
    repeat split; [constructor..|lia].
  - destruct (run_pos rng uniform n g g' r Hn Hrun)
      as (a & g1 & b & Ha & Hb & ->).
    destruct (contract _ _ _ _ _ _ Ha) as (_ & _ & Ra).
    destruct (contract _ _ _ _ _ _ Hb) as (_ & _ & Rb).
    simpl. repeat split; [now apply Ra|now apply Rb|].
    intros _. now exists g1.
Qed.

(** C9. For every negative [n], a run returns the same sentinel as for
    [n = 0]: empty sequences, both counts 0, estimate 0, and no draw. *)
Theorem simulate_negative (n : Z) (g : rng) :
  n < 0 ->
  run_pi_simulation uniform n g = run_pi_simulation uniform 0 g /\
  run_pi_simulation uniform n g
  = Some (mk_result [] [] [] (PyInt 0) 0 0, g).
Proof.
  intros Hn. rewrite !run_nonpos by lia. now split.
Qed.

(** C10. In every run that returns, the estimate lies in the closed
    interval [0, 4]: it is the integer 0 of the sentinel, or the binary64
    quotient of [4 * points_inside] by [points_total] with
    [0 <= points_inside <= points_total]. *)
Theorem pi_estimate_range (n : Z) (g g' : rng) (r : sim_result) :
  run_pi_simulation uniform n g = Some (r, g') ->
  estimate_in_range (pi_estimate r).
Proof.
  intros Hrun.
  destruct (Z.leb_spec n 0) as [Hn|Hn].
  - rewrite run_nonpos in Hrun by assumption.
    injection Hrun as <- _. simpl. lia.
  - destruct (run_lengths rng uniform contract n g g' r Hrun)
      as (_ & _ & Lf & Hlt).
    destruct (run_pos rng uniform n g g' r Hn Hrun)
      as (a & g1 & b & _ & _ & ->).
    fields.
    pose proof (count_true_le_length
                  (Np.less_equal (Np.add (Np.power2 a) (Np.power2 b)) 1)).
    unfold Np.int64_mul. rewrite sum_small by lia.
    rewrite int64_wrap_small by lia.
    apply true_divide_range; lia.
Qed.

End Estimator.

(** ** The renderer *)

(** The two formats of the annotation and the title, on sample values. *)
Example thousands_million : Fmt.thousands 1000000 = "1,000,000".
Proof. reflexivity. Qed.

Example thousands_small : Fmt.thousands 785 = "785".
Proof. reflexivity. Qed.

Example fixed6_pi : Fmt.fixed6_float math_pi = "3.141593".
Proof. now vm_compute. Qed.

Example fixed6_sentinel : Fmt.fixed6 (PyInt 0) = "0.000000".
Proof. now vm_compute. Qed.

(** Rendering the sentinel of an empty run: the placeholder and the two
    outlines, the title of a run of 0 points, no legend. *)
Example render_empty_result :
  option_map (fun fig => (children (fig_axes fig),
                          title (fig_axes fig), legend (fig_axes fig)))
             (render empty_result)
  = Some ([placeholder;
           Circle 0 0 1 "green" false 2 "Circle Boundary (r=1)";
           Rectangle (-1) (-1) 2 2 "black" false 2 "Square Boundary"],
          "Monte Carlo Estimation of Pi (N = 0)", None).
Proof. reflexivity. Qed.

(** X6. The outcome of a run can always be rendered: the renderer does not
    raise on it, since the flags have the shape of the coordinate arrays. *)
Lemma render_returns (rng : Type)
      (uniform : float -> float -> Z -> rng -> option (list float * rng))
      (n : Z) (g g' : rng) (r : sim_result) :
  uniform_contract uniform ->
  run_pi_simulation uniform n g = Some (r, g') ->
  exists fig : figure, render r = Some fig.
Proof.
  intros contract Hrun.
  destruct (run_lengths rng uniform contract n g g' r Hrun)
    as (Lx & Ly & Lf & _).
  destruct (run_formats rng uniform contract n g g' r Hrun) as (Hf & Ht).
  unfold render, plot_simulation, draw_points.
  destruct (points_total r >? 0).
  - rewrite !mask_same_length
      by (unfold Np.invert; rewrite ?length_map; lia).
    rewrite Hf, Ht. eexists. reflexivity.
  - rewrite Ht. eexists. reflexivity.
Qed.

(** C8. With [points_total = 0] the renderer returns a figure whatever its
    other arguments are; the figure shows the centred message
    "No points generated", no scatter, no boxed annotation and no legend. *)
Theorem render_empty (xs ys : list float) (flags : list bool)
        (estimate : pynum) (inside : Z) :
  exists fig : figure,
    plot_simulation xs ys flags estimate inside 0 = Some fig /\
    existsb (is_centered_text "No points generated")
            (children (fig_axes fig)) = true /\
    existsb is_scatter (children (fig_axes fig)) = false /\
    existsb is_boxed_text (children (fig_axes fig)) = false /\
    legend (fig_axes fig) = None.
Proof.
  assert (Py.str_raises 0 = false) as H0 by (apply str_small; lia).
  unfold plot_simulation, draw_points. cbn [Z.gtb Z.compare].
  rewrite H0. eexists. split; [reflexivity|]. now vm_compute.
Qed.

(** ** The properties at work on the replayed sample points *)

Lemma stand_in_run :
  run_pi_simulation replay_uniform 4 stand_in = Some (stand_in_result, []).
Proof. reflexivity. Qed.

Lemma inside_flag_iff_witness :
  length (inside_circle stand_in_result) = length (x stand_in_result) /\
  forall (i : nat) (xi yi : float),
    nth_error (x stand_in_result) i = Some xi ->
    nth_error (y stand_in_result) i = Some yi ->
    exists flag : bool,
      nth_error (inside_circle stand_in_result) i = Some flag /\
      (flag = true <-> fle (xi * xi + yi * yi) 1) /\
      ((xi * xi + yi * yi =? 1)%float = true -> flag = true).
Proof.
  exact (inside_flag_iff replay replay_uniform replay_contract
                         4 stand_in [] stand_in_result stand_in_run).
Defined.

Lemma pi_estimate_formula_witness :
  (points_total stand_in_result > 0 ->
   exists f : float,
     pi_estimate stand_in_result = PyFloat f /\
     f = Np.true_divide (4 * points_inside stand_in_result)
                        (points_total stand_in_result) /\
     Prim2SF f
     = SFdiv prec emax
         (binary_normalize prec emax (4 * points_inside stand_in_result)
                           0 false)
         (binary_normalize prec emax (points_total stand_in_result)
                           0 false)) /\
  (points_total stand_in_result = 0 -> pi_estimate stand_in_result = PyInt 0) /\
  (forall f : float,
      pi_estimate stand_in_result = PyFloat f -> points_total stand_in_result > 0).
Proof.
  exact (pi_estimate_formula replay replay_uniform replay_contract
                             4 stand_in [] stand_in_result stand_in_run).
Defined.

Lemma stand_in_draws : draws_return replay_uniform 4 stand_in.
Proof.
  exists [1; 0; 1; 0.1]%float, [0; 1; 1; 0.1]%float,
         [0; 1; 1; 0.1]%float, []. now split.
Qed.

Lemma simulate_lengths_witness :
  exists (r : sim_result) (g' : replay),
    run_pi_simulation replay_uniform 4 stand_in = Some (r, g') /\
    Z.of_nat (length (x r)) = 4 /\
    Z.of_nat (length (y r)) = 4 /\
    Z.of_nat (length (inside_circle r)) = 4.
Proof.
  apply (simulate_lengths replay replay_uniform replay_contract 4 stand_in).
  - lia.
  - exact stand_in_draws.
Defined.

Lemma points_inside_count_witness :
  points_inside stand_in_result
  = Z.of_nat (count_occ bool_dec (inside_circle stand_in_result) true) /\
  points_inside stand_in_result <= points_total stand_in_result.
Proof.
  exact (points_inside_count replay replay_uniform replay_contract
                             4 stand_in [] stand_in_result stand_in_run).
Defined.

Lemma stand_in_scenario_witness :
  exists r : sim_result,
    run_pi_simulation replay_uniform 4 stand_in = Some (r, []) /\
    inside_circle r = [true; true; false; true] /\
    points_inside r = 3 /\
    points_total r = 4 /\
    pi_estimate r = PyFloat 3.
Proof.
  apply (stand_in_scenario replay replay_uniform
                           stand_in [0; 1; 1; 0.1]%float []).
  - reflexivity.
  - reflexivity.
Defined.

Lemma coordinates_in_square_witness :
  Forall (fun v => fle (-1) v /\ fle v 1) (x stand_in_result) /\
  Forall (fun v => fle (-1) v /\ fle v 1) (y stand_in_result) /\
  (0 < 4 ->
   exists g1 : replay,
     replay_uniform (-1) 1 4 stand_in = Some (x stand_in_result, g1) /\
     replay_uniform (-1) 1 4 g1 = Some (y stand_in_result, [])).
Proof.
  exact (coordinates_in_square replay replay_uniform replay_contract
                               4 stand_in [] stand_in_result stand_in_run).
Defined.

Lemma simulate_negative_witness :
  run_pi_simulation replay_uniform (-3) stand_in
  = run_pi_simulation replay_uniform 0 stand_in /\
  run_pi_simulation replay_uniform (-3) stand_in
  = Some (mk_result [] [] [] (PyInt 0) 0 0, stand_in).
Proof.
  apply (simulate_negative replay replay_uniform (-3) stand_in). lia.
Defined.

Lemma pi_estimate_range_witness :
  estimate_in_range (pi_estimate stand_in_result).
Proof.
  exact (pi_estimate_range replay replay_uniform replay_contract
                           4 stand_in [] stand_in_result stand_in_run).
Defined.

(** * Further properties of the renderer, the estimator and the script *)

(** ** Masks *)

Lemma length_select (a : list float) (m : list bool) :
  length a = length m ->
  length (Np.select a m) = count_occ bool_dec m true.
Proof.
  revert m. induction a as [|v a IH]; intros [|b m]; simpl; try discriminate.
  - reflexivity.
  - intros [= E]. destruct b; simpl; now rewrite IH.
Qed.

Lemma count_invert (m : list bool) :
  (count_occ bool_dec (Np.invert m) true + count_occ bool_dec m true
   = length m)%nat.
Proof.
  induction m as [|b m IH]; simpl; [reflexivity|].
  destruct b; simpl; lia.
Qed.

(** The points selected by a mask and by its negation are all the points,
    each one once. *)
Lemma select_partition (a b : list float) (m : list bool) :
  length a = length m -> length b = length m ->
  Permutation (combine (Np.select a m) (Np.select b m)
               ++ combine (Np.select a (Np.invert m))
                          (Np.select b (Np.invert m)))
              (combine a b).
Proof.
  revert a b. induction m as [|c m IH]; intros [|u a] [|v b]; simpl;
    try discriminate; try constructor.
  intros [= Ea] [= Eb]. specialize (IH a b Ea Eb).
  destruct c; simpl.
  - now constructor.
  - symmetry. apply Permutation_cons_app. now symmetry.
Qed.

(** The points kept by the flags of the sampler pass the test of the disk,
    the others fail it. *)
Lemma select_flags_in_disk (a b : list float) :
  let m := Np.less_equal (Np.add (Np.power2 a) (Np.power2 b)) 1 in
  Forall (fun p => in_disk p = true)
         (combine (Np.select a m) (Np.select b m)) /\
  Forall (fun p => in_disk p = false)
         (combine (Np.select a (Np.invert m)) (Np.select b (Np.invert m))).
Proof.
  revert b. induction a as [|u a IH]; intros [|v b]; simpl;
    try (split; constructor).
  destruct (IH b) as [I O].
  destruct (u * u + v * v <=? 1)%float eqn:E; simpl; split;
    try assumption; now constructor.
Qed.

(** ** The figure of a run with points *)

(** With [points_total > 0], a figure is returned only for masks of the
    shape of the arrays, and it holds the two scatters, the annotation and
    the two outlines, in this order. *)
Lemma plot_with_points (xs ys : list float) (flags : list bool)
      (estimate : pynum) (inside total : Z) (fig : figure) :
  0 < total ->
  plot_simulation xs ys flags estimate inside total = Some fig ->
  length xs = length flags /\ length ys = length flags /\
  Py.format_raises estimate inside total = false /\
  fig
  = mk_figure (8, 8)
      (mk_axes
         [Scatter (Np.select xs flags) (Np.select ys flags)
                  "blue" 0.5 5 "Inside Circle";
          Scatter (Np.select xs (Np.invert flags))
                  (Np.select ys (Np.invert flags))
                  "red" 0.5 5 "Outside Circle";
          annotation estimate inside total;
          Circle 0 0 1 "green" false 2 "Circle Boundary (r=1)";
          Rectangle (-1) (-1) 2 2 "black" false 2 "Square Boundary"]
         (Some (mk_legend
                  [(Scatter (Np.select xs flags) (Np.select ys flags)
                            "blue" 0.5 5 "Inside Circle", "Inside Circle");
                   (Scatter (Np.select xs (Np.invert flags))
                            (Np.select ys (Np.invert flags))
                            "red" 0.5 5 "Outside Circle", "Outside Circle");
                   (Circle 0 0 1 "green" false 2 "Circle Boundary (r=1)",
                    "Circle Boundary (r=1)");
                   (Rectangle (-1) (-1) 2 2 "black" false 2 "Square Boundary",
                    "Square Boundary")]
                  "upper right"))
         (Some (-1.1, 1.1)%float) (Some (-1.1, 1.1)%float)
         (Some ("equal", "box")) "X-coordinate" "Y-coordinate"
         ("Monte Carlo Estimation of Pi (N = "
          ++ Fmt.thousands total ++ ")")
         (Some (true, "--", 0.6%float)))
      true /\
  children (fig_axes fig)
  = [Scatter (Np.select xs flags) (Np.select ys flags)
             "blue" 0.5 5 "Inside Circle";
     Scatter (Np.select xs (Np.invert flags)) (Np.select ys (Np.invert flags))
             "red" 0.5 5 "Outside Circle";
     annotation estimate inside total;
     Circle 0 0 1 "green" false 2 "Circle Boundary (r=1)";
     Rectangle (-1) (-1) 2 2 "black" false 2 "Square Boundary"].
Proof.
  intros Ht. unfold plot_simulation, draw_points, Np.mask, Np.invert.
  destruct (Z.gtb_spec total 0) as [_|H]; [|lia].
  rewrite length_map.
  destruct (Nat.eqb_spec (length xs) (length flags)) as [Ex|Ex];
    [|discriminate].
  destruct (Nat.eqb_spec (length ys) (length flags)) as [Ey|Ey];
    [|discriminate].
  destruct (Py.format_raises estimate inside total); [discriminate|].
  destruct (Py.str_raises total); [discriminate|].
  intros [= <-]. now repeat split.
Qed.

(** X1. The renderer raises exactly in these cases: the title cannot be
    formatted because [points_total] has too many decimal digits; or it is
    given points ([points_total > 0]) and either the mask's length differs
    from the length of the x or of the y array, or a number of the
    annotation cannot be formatted ([points_inside] with too many digits,
    an [int] estimate beyond the range of the floats).  With
    [points_total <= 0] it never looks at the arrays, the estimate or
    [points_inside]. *)
Theorem plot_raises_iff (xs ys : list float) (flags : list bool)
        (estimate : pynum) (inside total : Z) :
  plot_simulation xs ys flags estimate inside total = None <->
  Py.str_raises total = true \/
  (0 < total /\
   (length xs <> length flags \/ length ys <> length flags \/
    Py.str_raises inside = true \/ Py.fixed_raises estimate = true)).
Proof.
  unfold plot_simulation, draw_points, Np.mask, Np.invert, Py.format_raises.
  rewrite length_map.
  destruct (Z.gtb_spec total 0) as [Ht|Ht].
  - destruct (Nat.eqb_spec (length xs) (length flags)) as [Ex|Ex];
      destruct (Nat.eqb_spec (length ys) (length flags)) as [Ey|Ey];
      destruct (Py.str_raises total) eqn:Es;
      destruct (Py.str_raises inside) eqn:Ei;
      destruct (Py.fixed_raises estimate) eqn:Ee;
      cbn [orb];
      (split;
       [ try discriminate; intros _;
         try (left; reflexivity); right; split; try lia; tauto
       | try reflexivity;
         intros [H|(_ & [H|[H|[H|H]]])];
         discriminate || contradiction ]).
  - destruct (Py.str_raises total) eqn:Es; split;
      try discriminate; try reflexivity.
    + intros _. now left.
    + intros [H|H]; [discriminate|lia].
Qed.

(** An [int] estimate beyond the range of the floats makes the annotation
    raise, but only when there are points. *)
Example plot_estimate_overflow :
  plot_simulation [] [] [] (PyInt (10 ^ 400)) 0 1 = None /\
  plot_simulation [] [] [] (PyInt (10 ^ 400)) 0 0 <> None.
Proof. split; [reflexivity|discriminate]. Qed.

(** The largest [int] that converts to a float, and the next one. *)
Example float_raises_threshold :
  Py.float_raises (2 ^ 1024 - 2 ^ 970 - 1) = false /\
  Py.float_raises (2 ^ 1024 - 2 ^ 970) = true /\
  Py.float_raises (- 2 ^ 1024) = true.
Proof. repeat split. Qed.

(** X2. In a figure with points, the blue and the red scatter together hold
    every point of the input exactly once: no point is lost, none is drawn
    twice or in both colours. *)
Theorem scatters_partition (xs ys : list float) (flags : list bool)
        (estimate : pynum) (inside total : Z) (fig : figure) :
  0 < total ->
  plot_simulation xs ys flags estimate inside total = Some fig ->
  Permutation (drawn_in "blue" fig ++ drawn_in "red" fig) (combine xs ys).
Proof.
  intros Ht Hplot.
  destruct (plot_with_points _ _ _ _ _ _ _ Ht Hplot)
    as (Ex & Ey & Hf & Hfig & Hc).
  unfold drawn_in. rewrite Hc. cbn. rewrite !app_nil_r.
  now apply select_partition.
Qed.

(** X3. With points, the figure has exactly one boxed annotation, the one
    that shows the counts and the estimate, no placeholder message, and
    its final legend lists the four labelled artists (the two scatters and
    the two outlines): the later legend call replaces the earlier one. *)
Theorem figure_with_points (xs ys : list float) (flags : list bool)
        (estimate : pynum) (inside total : Z) (fig : figure) :
  0 < total ->
  plot_simulation xs ys flags estimate inside total = Some fig ->
  filter is_boxed_text (children (fig_axes fig))
  = [annotation estimate inside total] /\
  existsb (is_centered_text "No points generated")
          (children (fig_axes fig)) = false /\
  exists labels : list string,
    legend_labels fig = Some labels /\
    Permutation labels ["Inside Circle"; "Outside Circle";
                        "Circle Boundary (r=1)"; "Square Boundary"].
Proof.
  intros Ht Hplot.
  destruct (plot_with_points _ _ _ _ _ _ _ Ht Hplot)
    as (Ex & Ey & Hf & Hfig & Hc).
  rewrite Hc. split; [reflexivity|]. split; [reflexivity|].
  rewrite Hfig. eexists. split; [reflexivity|]. apply Permutation_refl.
Qed.

(** ** The figure of a run *)

Section Picture.

Variable rng : Type.
Variable uniform : float -> float -> Z -> rng -> option (list float * rng).

(** The coloured points of the figure of a run: the points selected by the
    flags, and the others. *)
Lemma run_figure_points (n : Z) (g g' : rng) (r : sim_result) (fig : figure) :
  run_pi_simulation uniform n g = Some (r, g') ->
  render r = Some fig ->
  drawn_in "blue" fig
  = combine (Np.select (x r) (inside_circle r))
            (Np.select (y r) (inside_circle r)) /\
  drawn_in "red" fig
  = combine (Np.select (x r) (Np.invert (inside_circle r)))
            (Np.select (y r) (Np.invert (inside_circle r))).
Proof.
  intros Hrun Hfig. destruct (Z.leb_spec n 0) as [Hn|Hn].
  - rewrite run_nonpos in Hrun by assumption.
    injection Hrun as <- _. injection Hfig as <-. now split.
  - destruct (run_pos rng uniform n g g' r Hn Hrun)
      as (a & g1 & b & _ & _ & ->).
    unfold render in Hfig. fields.
    destruct (plot_with_points _ _ _ _ _ _ _ Hn Hfig)
      as (_ & _ & _ & _ & Hc).
    unfold drawn_in. rewrite Hc. cbn. now rewrite !app_nil_r.
Qed.

(** X5. In the figure of a run, every blue point passes the test
    [x*x + y*y <= 1] of the sampler and every red point fails it. *)
Theorem colours_follow_the_test (n : Z) (g g' : rng) (r : sim_result)
        (fig : figure) :
  run_pi_simulation uniform n g = Some (r, g') ->
  render r = Some fig ->
  Forall (fun p => in_disk p = true) (drawn_in "blue" fig) /\
  Forall (fun p => in_disk p = false) (drawn_in "red" fig).
Proof.
  intros Hrun Hfig.
  destruct (run_figure_points n g g' r fig Hrun Hfig) as [-> ->].
  destruct (Z.leb_spec n 0) as [Hn|Hn].
  - rewrite run_nonpos in Hrun by assumption.
    injection Hrun as <- _. split; constructor.
  - destruct (run_pos rng uniform n g g' r Hn Hrun)
      as (a & g1 & b & _ & _ & ->).
    fields. apply select_flags_in_disk.
Qed.

Hypothesis contract : uniform_contract uniform.

(** X4. The figure of a run agrees with the counts it is annotated with:
    it has [points_inside] blue points and
    [points_total - points_inside] red points. *)
Theorem picture_counts (n : Z) (g g' : rng) (r : sim_result) (fig : figure) :
  run_pi_simulation uniform n g = Some (r, g') ->
  render r = Some fig ->
  Z.of_nat (length (drawn_in "blue" fig)) = points_inside r /\
  Z.of_nat (length (drawn_in "red" fig))
  = points_total r - points_inside r.
Proof.
  intros Hrun Hfig.
  destruct (run_figure_points n g g' r fig Hrun Hfig) as [-> ->].
  destruct (run_lengths rng uniform contract n g g' r Hrun)
    as (Lx & Ly & Lf & Hlt).
  assert (points_inside r
          = Z.of_nat (count_occ bool_dec (inside_circle r) true)) as E.
  { destruct (Z.leb_spec n 0) as [Hn|Hn].
    - rewrite run_nonpos in Hrun by assumption.
      now injection Hrun as <- _.
    - destruct (run_pos rng uniform n g g' r Hn Hrun)
        as (a & g1 & b & _ & _ & ->).
      fields. apply sum_small. lia. }
  pose proof (count_invert (inside_circle r)) as Hinv.
  rewrite !length_combine, !length_select
    by (unfold Np.invert; rewrite ?length_map; lia).
  rewrite !Nat.min_id. lia.
Qed.

End Picture.

(** ** The binary64 quotient of two normal values *)

(** The division rounds the quotient of the mantissas to 53 bits: one more
    bit is shifted out when the first mantissa is not below the second. *)
Lemma SFdiv_normal (ma mb : positive) (ea eb : Z) :
  2 ^ 52 <= Zpos ma < 2 ^ 53 ->
  2 ^ 52 <= Zpos mb < 2 ^ 53 ->
  -52 <= ea <= 10 -> -52 <= eb <= 10 ->
  let n := if Zpos ma <? Zpos mb then 0 else 1 in
  SFdiv prec emax (S754_finite false ma ea) (S754_finite false mb eb)
  = renormalize (round_div (Zpos ma * 2 ^ 53) (Zpos mb * 2 ^ n))
                (ea - eb - 53 + n) /\
  2 ^ 52 <= round_div (Zpos ma * 2 ^ 53) (Zpos mb * 2 ^ n) <= 2 ^ 53.
Proof.
  intros Ha Hb Hea Heb n.
  assert (2 ^ 52 = 4503599627370496) as P52 by reflexivity.
  assert (2 ^ 53 = 9007199254740992) as P53 by reflexivity.
  assert (0 <= n <= 1) as Hn by (unfold n; destruct (_ <? _); lia).
  assert (2 ^ n = if Zpos ma <? Zpos mb then 1 else 2) as P2n
    by (unfold n; now destruct (_ <? _)).
  set (N := Zpos ma * 2 ^ 53). set (D := Zpos mb).
  assert (0 < D) as HD by (unfold D; lia).
  assert (0 < D * 2 ^ n) as HD2 by (rewrite P2n; destruct (_ <? _); lia).
  split.
  - unfold SFdiv, SFdiv_core_binary. cbn [xorb].
    rewrite (Zdigits2_unique (Zpos ma) 53), (Zdigits2_unique (Zpos mb) 53)
      by (change (53 - 1) with 52; lia).
    replace (Z.min (fexp prec emax (53 + ea - (53 + eb))) (ea - eb))
      with (ea - eb - 53)
      by (unfold fexp, SpecFloat.emin, prec, emax; lia).
    replace (ea - eb - (ea - eb - 53)) with 53 by lia.
    rewrite Z.shiftl_mul_pow2 by lia. fold N. fold D.
    pose proof (Z.mod_pos_bound N D HD) as Hr.
    assert (Z.div_eucl N D = (N / D, N mod D)) as E
      by (unfold Z.div, Z.modulo; now destruct (Z.div_eucl N D)).
    rewrite E. rewrite new_location_frac by assumption.
    apply round_aux_norm; try lia.
    rewrite !Z.pow_add_r, P2n by lia. unfold N, D. rewrite P52, P53.
    destruct (Z.ltb_spec (Zpos ma) (Zpos mb)); split;
      (apply Z.div_le_lower_bound || apply Z.div_lt_upper_bound); lia.
  - split.
    + pose proof (round_div_bounds N (D * 2 ^ n) HD2) as [B _].
      etransitivity; [|exact B].
      apply Z.div_le_lower_bound; [assumption|].
      rewrite P2n, P52. unfold N, D. rewrite P53.
      destruct (Z.ltb_spec (Zpos ma) (Zpos mb)); lia.
    + apply round_div_le; [assumption|].
      rewrite P2n, P53. unfold N, D. rewrite P53.
      destruct (Z.ltb_spec (Zpos ma) (Zpos mb)); lia.
Qed.

(** Two normal values, one four times the other, have the same mantissa. *)
Lemma normal_times_four (ma mb : positive) (ea eb : Z) :
  2 ^ 52 <= Zpos ma < 2 ^ 53 ->
  2 ^ 52 <= Zpos mb < 2 ^ 53 ->
  -52 <= ea -> -52 <= eb ->
  Zpos ma * 2 ^ (ea + 52) = 4 * (Zpos mb * 2 ^ (eb + 52)) ->
  ea = eb + 2 /\ ma = mb.
Proof.
  intros Ha Hb Hea Heb E.
  assert (2 ^ 52 = 4503599627370496) as P52 by reflexivity.
  assert (2 ^ 53 = 9007199254740992) as P53 by reflexivity.
  assert (0 < 2 ^ (ea + 52)) as Pa by (apply Z.pow_pos_nonneg; lia).
  assert (0 < 2 ^ (eb + 52)) as Pb by (apply Z.pow_pos_nonneg; lia).
  destruct (Z.lt_trichotomy ea (eb + 2)) as [H|[H|H]].
  - exfalso.
    assert (2 * 2 ^ (ea + 52) <= 4 * 2 ^ (eb + 52)).
    { change 4 with (2 ^ 2). change 2 with (2 ^ 1) at 1.
      rewrite <- !Z.pow_add_r by lia. apply Z.pow_le_mono_r; lia. }
    nia.
  - split; [assumption|]. subst ea.
    replace (eb + 2 + 52) with (2 + (eb + 52)) in E by lia.
    rewrite Z.pow_add_r in E by lia. change (2 ^ 2) with 4 in E.
    apply Pos2Z.inj. nia.
  - exfalso.
    assert (8 * 2 ^ (eb + 52) <= 2 ^ (ea + 52)).
    { change 8 with (2 ^ 3).
      rewrite <- !Z.pow_add_r by lia. apply Z.pow_le_mono_r; lia. }
    nia.
Qed.

(** No point inside: the quotient is [0.0]. *)
Lemma true_divide_none (n : Z) :
  1 <= n < 2 ^ 60 -> Np.true_divide 0 n = 0%float.
Proof.
  intros Hn. assert (2 ^ 60 = 1152921504606846976) as P60 by reflexivity.
  assert (2 ^ 62 = 4611686018427387904) as P62 by reflexivity.
  apply Prim2SF_inj. unfold Np.true_divide.
  rewrite div_spec, !Prim2SF_float_of_int, Prim2SF_zero by lia.
  destruct (int_to_float_normal n ltac:(lia)) as (mb & eb & -> & _).
  reflexivity.
Qed.

(** Some point inside: the quotient is positive. *)
Lemma true_divide_some (k n : Z) :
  1 <= k <= n -> n < 2 ^ 60 -> (0 <? Np.true_divide (4 * k) n)%float = true.
Proof.
  intros Hk Hn. assert (2 ^ 60 = 1152921504606846976) as P60 by reflexivity.
  assert (2 ^ 62 = 4611686018427387904) as P62 by reflexivity.
  unfold Np.true_divide.
  rewrite ltb_spec, div_spec, !Prim2SF_float_of_int, Prim2SF_zero by lia.
  destruct (int_to_float_normal n ltac:(lia)) as (mb & eb & -> & Hmb & Heb & _).
  destruct (int_to_float_normal (4 * k) ltac:(lia))
    as (ma & ea & -> & Hma & Hea & _).
  destruct (SFdiv_normal ma mb ea eb Hma Hmb Hea Heb) as [E B].
  unfold SF64div. rewrite E.
  destruct (renormalize_spec _ (ea - eb - 53
                                + (if Zpos ma <? Zpos mb then 0 else 1)) B)
    as (m & e & -> & _).
  reflexivity.
Qed.

(** All points inside: the quotient is exactly [4.0]. *)
Lemma true_divide_all (n : Z) :
  1 <= n < 2 ^ 60 -> Np.true_divide (4 * n) n = 4%float.
Proof.
  intros Hn. assert (2 ^ 60 = 1152921504606846976) as P60 by reflexivity.
  assert (2 ^ 62 = 4611686018427387904) as P62 by reflexivity.
  apply Prim2SF_inj. unfold Np.true_divide.
  rewrite div_spec, !Prim2SF_float_of_int, Prim2SF_four by lia.
  destruct (int_to_float_normal n ltac:(lia)) as (mb & eb & -> & Hmb & Heb & Vb).
  destruct (int_to_float_normal (4 * n) ltac:(lia))
    as (ma & ea & -> & Hma & Hea & Va).
  rewrite nearest53_mul4, <- Z.mul_assoc, <- Vb in Va by lia.
  destruct (normal_times_four ma mb ea eb Hma Hmb ltac:(lia) ltac:(lia) Va)
    as [-> ->].
  destruct (SFdiv_normal mb mb (eb + 2) eb Hmb Hmb Hea Heb) as [E _].
  unfold SF64div. rewrite E. rewrite Z.ltb_irrefl.
  replace (Zpos mb * 2 ^ 53) with (2 ^ 52 * (Zpos mb * 2 ^ 1))
    by (change (2 ^ 53) with (2 ^ 52 * 2); change (2 ^ 1) with 2; ring).
  rewrite round_div_exact by (change (2 ^ 1) with 2; lia).
  replace (eb + 2 - eb - 53 + 1) with (-50) by lia.
  reflexivity.
Qed.

(** ** Symmetries of the test of the disk *)

Lemma fmul_opp_opp (a : float) : (- a * - a = a * a)%float.
Proof.
  apply Prim2SF_inj. rewrite !mul_spec, !opp_spec.
  destruct (Prim2SF a) as [s|s| |s m e]; try destruct s; reflexivity.
Qed.

Lemma fadd_comm (a b : float) : (a + b = b + a)%float.
Proof.
  apply Prim2SF_inj. rewrite !add_spec. unfold SF64add, SFadd.
  destruct (Prim2SF a) as [s|s| |s m e], (Prim2SF b) as [t|t| |t p d];
    try destruct s; try destruct t; try reflexivity;
    rewrite (Z.min_comm d e); f_equal; apply Z.add_comm.
Qed.

Lemma flags_swap (a b : list float) :
  Np.less_equal (Np.add (Np.power2 b) (Np.power2 a)) 1
  = Np.less_equal (Np.add (Np.power2 a) (Np.power2 b)) 1.
Proof.
  unfold Np.less_equal, Np.add, Np.power2.
  revert b. induction a as [|u a IH]; intros [|v b]; simpl; try reflexivity.
  now rewrite IH, fadd_comm.
Qed.

Lemma power2_opp (a : list float) :
  Np.power2 (map opp a) = Np.power2 a.
Proof.
  unfold Np.power2.
  induction a as [|u a IH]; simpl; [reflexivity|].
  now rewrite IH, fmul_opp_opp.
Qed.

(** ** Further properties of the sampler/estimator *)

Section Sampling.

Variable rng : Type.
Variable uniform : float -> float -> Z -> rng -> option (list float * rng).

(** X10. The flags, the count and the estimate do not change when the
    points are mirrored: two runs of the same size whose draws differ by
    swapping the coordinates, or by changing the sign of all x or of all y
    coordinates, return the same flags, count and estimate. *)
Theorem mirrored_runs (n : Z) (g1 g1' g2 g2' : rng) (r1 r2 : sim_result) :
  run_pi_simulation uniform n g1 = Some (r1, g1') ->
  run_pi_simulation uniform n g2 = Some (r2, g2') ->
  (x r2 = y r1 /\ y r2 = x r1) \/
  (x r2 = map opp (x r1) /\ y r2 = y r1) \/
  (x r2 = x r1 /\ y r2 = map opp (y r1)) ->
  inside_circle r2 = inside_circle r1 /\
  points_inside r2 = points_inside r1 /\
  pi_estimate r2 = pi_estimate r1.
Proof.
  intros H1 H2 Hm. destruct (Z.leb_spec n 0) as [Hn|Hn].
  - rewrite run_nonpos in H1, H2 by assumption.
    injection H1 as <- _. injection H2 as <- _. now repeat split.
  - destruct (run_pos rng uniform n g1 g1' r1 Hn H1)
      as (a1 & h1 & b1 & _ & _ & ->).
    destruct (run_pos rng uniform n g2 g2' r2 Hn H2)
      as (a2 & h2 & b2 & _ & _ & ->).
    fields.
    assert (Np.less_equal (Np.add (Np.power2 a2) (Np.power2 b2)) 1
            = Np.less_equal (Np.add (Np.power2 a1) (Np.power2 b1)) 1) as E.
    { destruct Hm as [[-> ->]|[[-> ->]|[-> ->]]].
      - apply flags_swap.
      - now rewrite power2_opp.
      - now rewrite power2_opp. }
    rewrite E. now repeat split.
Qed.

Hypothesis contract : uniform_contract uniform.

(** X8. In a run with points, the estimate is the float [0.0] exactly
    when no point is inside, and it is positive as soon as one point is
    inside. *)
Theorem estimate_zero_iff (n : Z) (g g' : rng) (r : sim_result) :
  0 < n ->
  run_pi_simulation uniform n g = Some (r, g') ->
  exists f : float,
    pi_estimate r = PyFloat f /\
    (f = 0%float <-> points_inside r = 0) /\
    (0 < points_inside r <-> (0 <? f)%float = true).
Proof.
  intros Hn Hrun.
  destruct (run_lengths rng uniform contract n g g' r Hrun)
    as (_ & _ & Lf & Hlt).
  destruct (run_pos rng uniform n g g' r Hn Hrun)
    as (a & g1 & b & _ & _ & ->).
  fields.
  set (m := Np.less_equal (Np.add (Np.power2 a) (Np.power2 b)) 1) in *.
  pose proof (count_true_le_length m) as Hc.
  eexists. split; [reflexivity|].
  unfold Np.int64_mul. rewrite sum_small by lia.
  rewrite int64_wrap_small by lia.
  set (k := Z.of_nat (count_occ bool_dec m true)) in *.
  destruct (Z.eq_dec k 0) as [K|K].
  - rewrite K. change (4 * 0) with 0. rewrite true_divide_none by lia.
    split; [tauto|]. split; [lia|discriminate].
  - pose proof (true_divide_some k n ltac:(lia) ltac:(lia)) as P.
    split; [|split; [tauto|lia]].
    split; [|lia]. intros E. rewrite E in P. discriminate.
Qed.

(** X9. In a run with points that are all inside, the estimate is exactly
    the float [4.0]. *)
Theorem estimate_all_inside (n : Z) (g g' : rng) (r : sim_result) :
  0 < n ->
  run_pi_simulation uniform n g = Some (r, g') ->
  points_inside r = points_total r ->
  pi_estimate r = PyFloat 4.
Proof.
  intros Hn Hrun.
  destruct (run_lengths rng uniform contract n g g' r Hrun)
    as (_ & _ & Lf & Hlt).
  destruct (run_pos rng uniform n g g' r Hn Hrun)
    as (a & g1 & b & _ & _ & ->).
  fields. intros E. f_equal.
  unfold Np.int64_mul. rewrite E.
  rewrite int64_wrap_small by lia.
  apply true_divide_all. lia.
Qed.

End Sampling.

(** ** The script *)

Section Script.

Variable rng : Type.
Variable uniform : float -> float -> Z -> rng -> option (list float * rng).
Hypothesis contract : uniform_contract uniform.

(** A run of positive size that returns has made its two draws. *)
Lemma draws_of_run (n : Z) (g g' : rng) (r : sim_result) :
  0 < n ->
  run_pi_simulation uniform n g = Some (r, g') ->
  draws_return uniform n g.
Proof.
  intros Hn Hrun.
  destruct (run_pos rng uniform n g g' r Hn Hrun)
    as (a & g1 & b & Ha & Hb & _).
  now exists a, g1, b, g'.
Qed.

(** The figure drawn from two arrays of [n > 0] points. *)
Lemma plot_of_draws (n : Z) (g g1 g2 : rng) (a b : list float) :
  0 < n ->
  uniform (-1) 1 n g = Some (a, g1) ->
  uniform (-1) 1 n g1 = Some (b, g2) ->
  exists fig : figure, render (result_of n a b) = Some fig.
Proof.
  intros Hn Ha Hb.
  destruct (contract _ _ _ _ _ _ Ha) as (La & _ & _).
  destruct (contract _ _ _ _ _ _ Hb) as (Lb & _ & _).
  pose proof (run_of_draws rng uniform n g g1 g2 a b Hn Ha Hb) as Hrun.
  destruct (run_formats rng uniform contract n g g2 _ Hrun) as (Hf & Ht).
  unfold render, plot_simulation, draw_points. fields.
  destruct (Z.gtb_spec n 0) as [_|H]; [|lia].
  rewrite !mask_same_length
    by (unfold Np.invert; rewrite ?length_map, length_flags; lia).
  rewrite Hf, Ht. eexists. reflexivity.
Qed.


(** X12. With the button pressed, the script raises exactly when one of
    the two draws of numpy raises, for every slider value that is not
    negative: the estimate, the formatting and the plot never fail. *)
Theorem app_raises_iff (n_points_slider : Z) (g : rng) :
  0 <= n_points_slider ->
  app uniform n_points_slider true g = None <->
  ~ draws_return uniform (n_points n_points_slider) g.
Proof.
  intros Hs.
  assert (0 < n_points n_points_slider) as Hn
    by (unfold n_points; apply Z.pow_pos_nonneg; lia).
  set (n := n_points n_points_slider) in *.
  unfold app. fold n. split.
  - intros Happ (a & g1 & b & g2 & Ha & Hb).
    pose proof (run_of_draws rng uniform n g g1 g2 a b Hn Ha Hb) as Hrun.
    destruct (run_formats rng uniform contract n g g2 _ Hrun) as (Hf & _).
    rewrite Hrun, Hf in Happ.
    destruct (plot_of_draws n g g1 g2 a b Hn Ha Hb) as (fig & Hfig).
    unfold render in Hfig. rewrite Hfig in Happ. discriminate.
  - intros Hd.
    destruct (run_pi_simulation uniform n g) as [[r g']|] eqn:Hrun;
      [|reflexivity].
    exfalso. apply Hd. now apply (draws_of_run n g g' r).
Qed.

End Script.

(** ** The estimate grows with the count *)

(** Normal values compare as their values do. *)
Lemma normal_leb (m1 m2 : positive) (e1 e2 c : Z) :
  2 ^ 52 <= Zpos m1 < 2 ^ 53 ->
  2 ^ 52 <= Zpos m2 < 2 ^ 53 ->
  0 <= e1 + c -> 0 <= e2 + c ->
  Zpos m1 * 2 ^ (e1 + c) <= Zpos m2 * 2 ^ (e2 + c) ->
  SFleb (S754_finite false m1 e1) (S754_finite false m2 e2) = true.
Proof.
  intros H1 H2 C1 C2 Hle.
  assert (2 ^ 52 = 4503599627370496) as P52 by reflexivity.
  assert (2 ^ 53 = 9007199254740992) as P53 by reflexivity.
  assert (0 < 2 ^ (e2 + c)) as Pc by (apply Z.pow_pos_nonneg; lia).
  unfold SFleb, SFcompare.
  destruct (Z.compare_spec e1 e2) as [E|E|E]; [|reflexivity|exfalso].
  - subst e2. rewrite Pos.compare_cont_spec. cbn [Pos.switch_Eq].
    destruct (Pos.compare_spec m1 m2) as [Em|Em|Em]; try reflexivity.
    exfalso. apply Pos2Z.pos_lt_pos in Em. nia.
  - assert (2 * 2 ^ (e2 + c) <= 2 ^ (e1 + c)).
    { change 2 with (2 ^ 1) at 1.
      rewrite <- Z.pow_add_r by lia. apply Z.pow_le_mono_r; lia. }
    nia.
Qed.

(** Rounding quotients by the same divisor to 53 bits is monotone, also
    across binades. *)
Lemma rounded_mono (X1 X2 D s1 s2 : Z) :
  0 < D -> 0 <= s1 -> 0 <= s2 ->
  D * 2 ^ (52 + s1) <= X1 < D * 2 ^ (53 + s1) ->
  D * 2 ^ (52 + s2) <= X2 < D * 2 ^ (53 + s2) ->
  X1 <= X2 ->
  round_div X1 (D * 2 ^ s1) * 2 ^ s1 <= round_div X2 (D * 2 ^ s2) * 2 ^ s2.
Proof.
  intros HD Hs1 Hs2 B1 B2 Hle.
  assert (0 < 2 ^ s1) as P1 by (apply Z.pow_pos_nonneg; lia).
  assert (0 < 2 ^ s2) as P2 by (apply Z.pow_pos_nonneg; lia).
  rewrite !Z.pow_add_r in B1, B2 by lia.
  destruct (Z.lt_trichotomy s1 s2) as [H|[H|H]].
  - assert (round_div X1 (D * 2 ^ s1) <= 2 ^ 53)
      by (apply round_div_le; nia).
    assert (2 ^ 52 <= round_div X2 (D * 2 ^ s2)).
    { pose proof (round_div_bounds X2 (D * 2 ^ s2) ltac:(nia)) as [B _].
      etransitivity; [|exact B]. apply Z.div_le_lower_bound; nia. }
    assert (2 * 2 ^ s1 <= 2 ^ s2).
    { change 2 with (2 ^ 1) at 1.
      rewrite <- Z.pow_add_r by lia. apply Z.pow_le_mono_r; lia. }
    assert (2 ^ 53 = 2 * 2 ^ 52) as P53 by reflexivity.
    assert (0 < 2 ^ 52) as P52 by reflexivity.
    nia.
  - subst s2. apply Z.mul_le_mono_nonneg_r; [lia|].
    apply round_div_mono; nia.
  - exfalso.
    assert (2 * 2 ^ s2 <= 2 ^ s1).
    { change 2 with (2 ^ 1) at 1.
      rewrite <- Z.pow_add_r by lia. apply Z.pow_le_mono_r; lia. }
    assert (2 ^ 53 = 2 * 2 ^ 52) as P53 by reflexivity.
    assert (0 < 2 ^ 52) as P52 by reflexivity.
    nia.
Qed.

(** The quotient of two normal values, as a rounded integer quotient at a
    scale that only depends on the divisor. *)
Lemma SFdiv_normal_value (ma mb : positive) (ea eb : Z) :
  2 ^ 52 <= Zpos ma < 2 ^ 53 ->
  2 ^ 52 <= Zpos mb < 2 ^ 53 ->
  -52 <= ea <= 10 -> -52 <= eb <= 10 ->
  let X := Zpos ma * 2 ^ 53 * 2 ^ (ea + 52) in
  exists (m : positive) (e s : Z),
    SFdiv prec emax (S754_finite false ma ea) (S754_finite false mb eb)
    = S754_finite false m e /\
    2 ^ 52 <= Zpos m < 2 ^ 53 /\
    0 <= s /\ 0 <= e + (eb + 105) /\
    Zpos mb * 2 ^ (52 + s) <= X < Zpos mb * 2 ^ (53 + s) /\
    Zpos m * 2 ^ (e + (eb + 105))
    = round_div X (Zpos mb * 2 ^ s) * 2 ^ s.
Proof.
  intros Ha Hb Hea Heb X.
  assert (2 ^ 52 = 4503599627370496) as P52 by reflexivity.
  assert (2 ^ 53 = 9007199254740992) as P53 by reflexivity.
  destruct (SFdiv_normal ma mb ea eb Ha Hb Hea Heb) as [E B].
  set (n := if Zpos ma <? Zpos mb then 0 else 1) in *.
  assert (0 <= n <= 1) as Hn by (unfold n; destruct (_ <? _); lia).
  assert (2 ^ n = if Zpos ma <? Zpos mb then 1 else 2) as P2n
    by (unfold n; now destruct (_ <? _)).
  set (t := ea + 52) in *.
  assert (0 <= t) as Ht by (unfold t; lia).
  assert (0 < 2 ^ t) as Pt by (apply Z.pow_pos_nonneg; lia).
  set (M := round_div (Zpos ma * 2 ^ 53) (Zpos mb * 2 ^ n)) in *.
  assert (round_div X (Zpos mb * 2 ^ (n + t)) = M) as EM.
  { unfold X, M. rewrite Z.pow_add_r by lia.
    replace (Zpos ma * 2 ^ 53 * 2 ^ t) with (2 ^ t * (Zpos ma * 2 ^ 53))
      by ring.
    replace (Zpos mb * (2 ^ n * 2 ^ t)) with (2 ^ t * (Zpos mb * 2 ^ n))
      by ring.
    apply round_div_scale; [|assumption].
    rewrite P2n. destruct (_ <? _); lia. }
  destruct (renormalize_spec M (ea - eb - 53 + n) B) as (m & e & Er & Bm & Alt).
  exists m, e, (n + t). rewrite E, Er.
  split; [reflexivity|]. split; [assumption|]. split; [lia|].
  split; [lia|]. split.
  - unfold X. rewrite !Z.pow_add_r, P2n, P52, P53 by lia.
    destruct (Z.ltb_spec (Zpos ma) (Zpos mb)); nia.
  - rewrite EM.
    destruct Alt as [[-> <-]|[-> <-]].
    + do 2 f_equal. unfold t. lia.
    + replace (ea - eb - 53 + n + 1 + (eb + 105)) with (Z.succ (n + t))
        by (unfold t; lia).
      rewrite Z.pow_succ_r by lia. ring.
Qed.

(** The quotient of [4 * k] by [n] does not decrease when [k] grows. *)
Lemma true_divide_mono (k1 k2 n : Z) :
  0 <= k1 <= k2 -> k2 <= n -> 1 <= n < 2 ^ 60 ->
  fle (Np.true_divide (4 * k1) n) (Np.true_divide (4 * k2) n).
Proof.
  intros Hk Hkn Hn.
  assert (2 ^ 60 = 1152921504606846976) as P60 by reflexivity.
  assert (2 ^ 62 = 4611686018427387904) as P62 by reflexivity.
  destruct (Z.eq_dec k1 0) as [->|K1].
  - change (4 * 0) with 0. rewrite true_divide_none by lia.
    apply true_divide_range; lia.
  - unfold fle, Np.true_divide.
    rewrite leb_spec, !div_spec, !Prim2SF_float_of_int by lia.
    destruct (int_to_float_normal n ltac:(lia))
      as (mb & eb & -> & Hmb & Heb & _).
    destruct (int_to_float_normal (4 * k1) ltac:(lia))
      as (m1 & e1 & -> & Hm1 & He1 & V1).
    destruct (int_to_float_normal (4 * k2) ltac:(lia))
      as (m2 & e2 & -> & Hm2 & He2 & V2).
    pose proof (nearest53_mono (4 * k1) (4 * k2) ltac:(lia) ltac:(lia)) as Hv.
    unfold SF64div.
    destruct (SFdiv_normal_value m1 mb e1 eb Hm1 Hmb He1 Heb)
      as (q1 & d1 & s1 & -> & Hq1 & Hs1 & Hd1 & B1 & W1).
    destruct (SFdiv_normal_value m2 mb e2 eb Hm2 Hmb He2 Heb)
      as (q2 & d2 & s2 & -> & Hq2 & Hs2 & Hd2 & B2 & W2).
    apply (normal_leb q1 q2 d1 d2 (eb + 105)); try assumption.
    rewrite W1, W2.
    apply rounded_mono; try assumption; lia.
Qed.

Section Monotone.

Variable rng : Type.
Variable uniform : float -> float -> Z -> rng -> option (list float * rng).
Hypothesis contract : uniform_contract uniform.

(** X13. Among runs of the same size, more points inside never give a
    smaller estimate: the rounding of the two conversions and of the
    division preserves the order of the counts. *)
Theorem estimate_monotone (n : Z) (g1 g1' g2 g2' : rng)
        (r1 r2 : sim_result) :
  run_pi_simulation uniform n g1 = Some (r1, g1') ->
  run_pi_simulation uniform n g2 = Some (r2, g2') ->
  points_inside r1 <= points_inside r2 ->
  fle (to_float (pi_estimate r1)) (to_float (pi_estimate r2)).
Proof.
  intros H1 H2. destruct (Z.leb_spec n 0) as [Hn|Hn].
  - rewrite run_nonpos in H1, H2 by assumption.
    injection H1 as <- _. injection H2 as <- _. intros _. now vm_compute.
  - destruct (run_lengths rng uniform contract n g1 g1' r1 H1)
      as (_ & _ & L1 & Hlt).
    destruct (run_lengths rng uniform contract n g2 g2' r2 H2)
      as (_ & _ & L2 & _).
    destruct (run_pos rng uniform n g1 g1' r1 Hn H1)
      as (a1 & h1 & b1 & _ & _ & ->).
    destruct (run_pos rng uniform n g2 g2' r2 Hn H2)
      as (a2 & h2 & b2 & _ & _ & ->).
    fields. cbn [to_float].
    pose proof (count_true_le_length
                  (Np.less_equal (Np.add (Np.power2 a1) (Np.power2 b1)) 1)).
    pose proof (count_true_le_length
                  (Np.less_equal (Np.add (Np.power2 a2) (Np.power2 b2)) 1)).
    unfold Np.int64_mul. rewrite !sum_small by lia.
    rewrite !int64_wrap_small by lia.
    intros Hle. apply true_divide_mono; lia.
Qed.

End Monotone.

(** ** The further properties at work on recorded draws *)

Lemma stand_in_render : render stand_in_result = Some stand_in_fig.
Proof. reflexivity. Qed.

Lemma swapped_run :
  run_pi_simulation replay_uniform 4 swapped = Some (swapped_result, []).
Proof. reflexivity. Qed.

Lemma centre_run :
  run_pi_simulation replay_uniform 4 centre = Some (centre_result, []).
Proof. reflexivity. Qed.


Lemma scatters_partition_witness :
  Permutation (drawn_in "blue" stand_in_fig ++ drawn_in "red" stand_in_fig)
              (combine (x stand_in_result) (y stand_in_result)).
Proof.
  apply (scatters_partition (x stand_in_result) (y stand_in_result)
                            (inside_circle stand_in_result)
                            (pi_estimate stand_in_result)
                            (points_inside stand_in_result)
                            (points_total stand_in_result)).
  - reflexivity.
  - exact stand_in_render.
Defined.

Lemma figure_with_points_witness :
  filter is_boxed_text (children (fig_axes stand_in_fig))
  = [annotation (pi_estimate stand_in_result)
                (points_inside stand_in_result)
                (points_total stand_in_result)] /\
  existsb (is_centered_text "No points generated")
          (children (fig_axes stand_in_fig)) = false /\
  exists labels : list string,
    legend_labels stand_in_fig = Some labels /\
    Permutation labels ["Inside Circle"; "Outside Circle";
                        "Circle Boundary (r=1)"; "Square Boundary"].
Proof.
  apply (figure_with_points (x stand_in_result) (y stand_in_result)
                            (inside_circle stand_in_result)).
  - reflexivity.
  - exact stand_in_render.
Defined.

Lemma picture_counts_witness :
  Z.of_nat (length (drawn_in "blue" stand_in_fig))
  = points_inside stand_in_result /\
  Z.of_nat (length (drawn_in "red" stand_in_fig))
  = points_total stand_in_result - points_inside stand_in_result.
Proof.
  exact (picture_counts replay replay_uniform replay_contract
                        4 stand_in [] stand_in_result stand_in_fig
                        stand_in_run stand_in_render).
Defined.

Lemma colours_follow_the_test_witness :
  Forall (fun p => in_disk p = true) (drawn_in "blue" stand_in_fig) /\
  Forall (fun p => in_disk p = false) (drawn_in "red" stand_in_fig).
Proof.
  exact (colours_follow_the_test replay replay_uniform
                                 4 stand_in [] stand_in_result stand_in_fig
                                 stand_in_run stand_in_render).
Defined.

Lemma render_returns_witness :
  exists fig : figure, render stand_in_result = Some fig.
Proof.
  exact (render_returns replay replay_uniform 4 stand_in [] stand_in_result
                        replay_contract stand_in_run).
Defined.

Lemma mirrored_runs_witness :
  inside_circle swapped_result = inside_circle stand_in_result /\
  points_inside swapped_result = points_inside stand_in_result /\
  pi_estimate swapped_result = pi_estimate stand_in_result.
Proof.
  apply (mirrored_runs replay replay_uniform 4 stand_in [] swapped []
                       stand_in_result swapped_result
                       stand_in_run swapped_run).
  left. now split.
Defined.

Lemma estimate_zero_iff_witness :
  exists f : float,
    pi_estimate stand_in_result = PyFloat f /\
    (f = 0%float <-> points_inside stand_in_result = 0) /\
    (0 < points_inside stand_in_result <-> (0 <? f)%float = true).
Proof.
  apply (estimate_zero_iff replay replay_uniform replay_contract
                           4 stand_in [] stand_in_result).
  - lia.
  - exact stand_in_run.
Defined.

Lemma estimate_all_inside_witness : pi_estimate centre_result = PyFloat 4.
Proof.
  apply (estimate_all_inside replay replay_uniform replay_contract
                             4 centre [] centre_result).
  - lia.
  - exact centre_run.
  - reflexivity.
Defined.

Lemma estimate_monotone_witness :
  fle (to_float (pi_estimate stand_in_result))
      (to_float (pi_estimate centre_result)).
Proof.
  apply (estimate_monotone replay replay_uniform replay_contract
                           4 stand_in [] centre []
                           stand_in_result centre_result
                           stand_in_run centre_run).
  vm_compute. discriminate.
Defined.


Lemma app_raises_iff_witness :
  app replay_uniform 1 true [] = None <->
  ~ draws_return replay_uniform (n_points 1) [].
Proof.
  apply (app_raises_iff replay replay_uniform replay_contract 1 []). lia.
Defined.
